(** * JNIHelper: static Java calls from native code

    A shallow embedding of [src/_android/calls/StaticCaller.hpp]: the
    [StaticCaller] family of class templates and the two [callStaticMethod]
    function templates, with the properties their specification states.

    The header is an adapter over the Java Native Interface.  Everything it
    calls lives outside of it: the JNI function table ([JNIEnv]), the error
    reporter, the signature builder and the type map.  The calls into the
    runtime and into the collaborating headers are recorded, in order, in a
    log of events, so that statements about what is called, with what, and
    how often can be made. *)

From Stdlib Require Import ZArith NArith String List Bool Lia.
From ExtLib Require Import Structures.Monad Structures.MonadState.
From ExtLib Require Import Data.Monads.StateMonad.
Import ListNotations.
Import MonadNotation.

Local Open Scope string_scope.
Local Open Scope monad_scope.

(** ** Types of the native side *)

(** The types of [jni.h].  [T_jref n] stands for the reference types other
    than [jobject] ([jclass], [jstring], [jthrowable], the array types): in
    C++ each is a pointer to a class derived from [_jobject]. *)
Inductive JavaType : Type :=
| T_void
| T_jboolean   (* unsigned 8 bits *)
| T_jbyte      (* signed 8 bits *)
| T_jchar      (* unsigned 16 bits *)
| T_jshort     (* signed 16 bits *)
| T_jint       (* signed 32 bits *)
| T_jlong      (* signed 64 bits *)
| T_jfloat
| T_jdouble
| T_jobject
| T_jref (name : string).

(** A template type argument: a type of [jni.h], or any other class type
    (the tag classes declared with JH_JAVA_CUSTOM_CLASS, for one). *)
Inductive CppType : Type :=
| Java (t : JavaType)
| Class (name : string).

(** Pointers are addresses; [nullptr] is address zero. *)
Definition jobject := N.
Definition jclass := N.
Definition jmethodID := N.
Definition nullptr : N := 0%N.

(** [s.c_str()] as a JNI function reads it: the characters of [s] up to
    the first null character. *)
Fixpoint c_str (s : string) : string :=
  match s with
  | EmptyString => EmptyString
  | String c rest =>
      if Ascii.eqb c Ascii.zero then EmptyString else String c (c_str rest)
  end.

(** A value of one of the types of [jni.h], after the fields of the JNI
    union [jvalue], and the result of an expression of type [void].
    Floating-point values are kept as their bit patterns: the header never
    computes with them. *)
Inductive jvalue : Type :=
| Vvoid
| Vboolean (z : Z)
| Vbyte (b : Z)
| Vchar (c : Z)
| Vshort (s : Z)
| Vint (i : Z)
| Vlong (j : Z)
| Vfloat (f : Z)
| Vdouble (d : Z)
| Vobject (l : jobject).

(** [T()]: value-initialisation, zero for the arithmetic types and the null
    pointer for the reference types. *)
Definition value_init (T : JavaType) : jvalue :=
  match T with
  | T_void => Vvoid
  | T_jboolean => Vboolean 0
  | T_jbyte => Vbyte 0
  | T_jchar => Vchar 0
  | T_jshort => Vshort 0
  | T_jint => Vint 0
  | T_jlong => Vlong 0
  | T_jfloat => Vfloat 0
  | T_jdouble => Vdouble 0
  | T_jobject | T_jref _ => Vobject nullptr
  end.

(** *** [static_cast] *)

Definition wrap_unsigned (bits z : Z) : Z := z mod 2 ^ bits.

Definition wrap_signed (bits z : Z) : Z :=
  (z + 2 ^ (bits - 1)) mod 2 ^ bits - 2 ^ (bits - 1).

(** What a function template instance hands back to its caller. *)
Inductive Returned : Type :=
| Value (v : jvalue)
| IllFormed            (* the conversion does not exist: no such instance *)
| FloatingConversion.  (* a floating-point conversion, not modelled here *)

(** The integer an operand of integral type holds. *)
Definition integral_value (v : jvalue) : option Z :=
  match v with
  | Vboolean z | Vbyte z | Vchar z | Vshort z | Vint z | Vlong z => Some z
  | _ => None
  end.

(** Is the operand already of type [T]?  An operand of reference type has
    some pointer type of the [_jobject] hierarchy, the model keeps no more. *)
Definition has_type (T : JavaType) (v : jvalue) : bool :=
  match T, v with
  | T_void, Vvoid
  | T_jboolean, Vboolean _
  | T_jbyte, Vbyte _
  | T_jchar, Vchar _
  | T_jshort, Vshort _
  | T_jint, Vint _
  | T_jlong, Vlong _
  | T_jfloat, Vfloat _
  | T_jdouble, Vdouble _
  | T_jobject, Vobject _
  | T_jref _, Vobject _ => true
  | _, _ => false
  end.

(** The conversion of an integer to the integral type [T]: reduction modulo
    two to the width of [T]. *)
Definition integral_conversion (T : JavaType) : option (Z -> jvalue) :=
  match T with
  | T_jboolean => Some (fun z => Vboolean (wrap_unsigned 8 z))
  | T_jbyte => Some (fun z => Vbyte (wrap_signed 8 z))
  | T_jchar => Some (fun z => Vchar (wrap_unsigned 16 z))
  | T_jshort => Some (fun z => Vshort (wrap_signed 16 z))
  | T_jint => Some (fun z => Vint (wrap_signed 32 z))
  | T_jlong => Some (fun z => Vlong (wrap_signed 64 z))
  | _ => None
  end.

(** [static_cast<T>(v)].  To the operand's own type: nothing happens.  To
    [void]: the value is discarded.  Between pointers of the [_jobject]
    hierarchy (single, non-virtual inheritance): the address is kept.
    Between a pointer and an arithmetic type, or from [void]: ill-formed.
    Between integral types: [integral_conversion].  What is left has a
    floating-point type on one side. *)
Definition static_cast (T : JavaType) (v : jvalue) : Returned :=
  if has_type T v then Value v
  else
    match T, v with
    | T_void, _ => Value Vvoid
    | _, Vvoid => IllFormed
    | (T_jobject | T_jref _), _ => IllFormed
    | _, Vobject _ => IllFormed
    | _, _ =>
        match integral_conversion T, integral_value v with
        | Some convert, Some z => Value (convert z)
        | _, _ => FloatingConversion
        end
    end.

(** ** The foreign runtime *)

(** The JNI functions the header calls, as a table of functions (which is
    what a [JNIEnv] is).  [JVM] is the state of the Java virtual machine:
    every JNI function may read and change it.  A lookup that fails returns
    [nullptr]. *)
Record JNIEnv (JVM : Type) : Type := {
  FindClass : string -> JVM -> jclass * JVM;
  GetStaticMethodID : jclass -> string -> string -> JVM -> jmethodID * JVM;
  CallStaticObjectMethod :
    jclass -> jmethodID -> list jvalue -> JVM -> jobject * JVM;
  CallStaticVoidMethod :
    jclass -> jmethodID -> list jvalue -> JVM -> unit * JVM;
  CallStaticBooleanMethod :
    jclass -> jmethodID -> list jvalue -> JVM -> Z * JVM;
  CallStaticIntMethod :
    jclass -> jmethodID -> list jvalue -> JVM -> Z * JVM;
  CallStaticLongMethod :
    jclass -> jmethodID -> list jvalue -> JVM -> Z * JVM;
  CallStaticFloatMethod :
    jclass -> jmethodID -> list jvalue -> JVM -> Z * JVM;
  CallStaticDoubleMethod :
    jclass -> jmethodID -> list jvalue -> JVM -> Z * JVM
}.

Arguments FindClass {JVM}.
Arguments GetStaticMethodID {JVM}.
Arguments CallStaticObjectMethod {JVM}.
Arguments CallStaticVoidMethod {JVM}.
Arguments CallStaticBooleanMethod {JVM}.
Arguments CallStaticIntMethod {JVM}.
Arguments CallStaticLongMethod {JVM}.
Arguments CallStaticFloatMethod {JVM}.
Arguments CallStaticDoubleMethod {JVM}.

(** The seven [CallStatic<Kind>Method] functions. *)
Inductive CallVariant : Type :=
| ObjectMethod
| VoidMethod
| BooleanMethod
| IntMethod
| LongMethod
| FloatMethod
| DoubleMethod.

(** A call that leaves the header, with what it was given and what it
    answered. *)
Inductive Event : Type :=
| EvGetEnvironment
| EvSignature (ReturnType : CppType) (ArgumentTypes : list CppType)
    (signature : string)
| EvFindClass (name : string) (answer : jclass)
| EvGetStaticMethodID (javaClass : jclass) (name signature : string)
    (answer : jmethodID)
| EvCallStatic (variant : CallVariant) (javaClass : jclass)
    (javaMethod : jmethodID) (arguments : list jvalue) (answer : jvalue)
| EvReport (message : string).

(** What [ToJavaType<T>] declares: the native type [T] becomes and the
    return type a call is dispatched on. *)
Record ToJavaTypeOf : Type := {
  Type_ : JavaType;
  CallReturnType : CppType
}.

(** A class declared for the class-typed overload: [className()] is a
    static member that returns the name of the Java class. *)
Record JavaClassType : Type := {
  className : string
}.

Section Caller.

Variable JVM : Type.

(** The headers [StaticCaller.hpp] includes are not among the sources;
    what it uses of them is left open here. *)

(** [core/JNIEnvironment.hpp]: the function table of the current thread. *)
Variable currentEnvironment : JNIEnv JVM.

(** [core/ToJavaType.hpp]: the type map. *)
Variable ToJavaType : CppType -> ToJavaTypeOf.

(** [core/JavaMethodSignature.hpp]: the signature string of a return type
    and argument types. *)
Variable JavaMethodSignature : CppType -> list CppType -> string.

(** The state a call runs in: that of the virtual machine, and the log. *)
Record World : Type := {
  jvm : JVM;
  log : list Event
}.

Definition Native : Type -> Type := state World.

(** A call that does not touch the virtual machine. *)
Definition record (e : Event) : Native unit :=
  modify (fun w => {| jvm := jvm w; log := log w ++ [e] |}) ;;
  ret tt.

(** A call into the virtual machine. *)
Definition foreign {A : Type} (f : JVM -> A * JVM) (e : A -> Event)
  : Native A :=
  w <- get ;;
  put {| jvm := snd (f (jvm w)); log := log w ++ [e (fst (f (jvm w)))] |} ;;
  ret (fst (f (jvm w))).

Definition getCurrentJNIEnvironment : Native (JNIEnv JVM) :=
  record EvGetEnvironment ;;
  ret currentEnvironment.

Definition getJavaMethodSignature (ReturnType : CppType)
    (ArgumentTypes : list CppType) : Native string :=
  let signature := JavaMethodSignature ReturnType ArgumentTypes in
  record (EvSignature ReturnType ArgumentTypes signature) ;;
  ret signature.

(** [core/ErrorHandler.hpp]: the error reporter; it returns. *)
Definition reportInternalError (message : string) : Native unit :=
  record (EvReport message).

(** [env->F(...)] for each JNI function [F] the header calls. *)
Definition env_FindClass (env : JNIEnv JVM) (name : string)
  : Native jclass :=
  foreign (FindClass env name) (EvFindClass name).

Definition env_GetStaticMethodID (env : JNIEnv JVM) (javaClass : jclass)
    (name signature : string) : Native jmethodID :=
  foreign (GetStaticMethodID env javaClass name signature)
          (EvGetStaticMethodID javaClass name signature).

Definition env_CallStaticObjectMethod (env : JNIEnv JVM)
    (javaClass : jclass) (javaMethod : jmethodID) (arguments : list jvalue)
  : Native jvalue :=
  l <- foreign (CallStaticObjectMethod env javaClass javaMethod arguments)
         (fun l => EvCallStatic ObjectMethod javaClass javaMethod arguments
                     (Vobject l)) ;;
  ret (Vobject l).

Definition env_CallStaticVoidMethod (env : JNIEnv JVM)
    (javaClass : jclass) (javaMethod : jmethodID) (arguments : list jvalue)
  : Native jvalue :=
  foreign (CallStaticVoidMethod env javaClass javaMethod arguments)
    (fun _ => EvCallStatic VoidMethod javaClass javaMethod arguments
                Vvoid) ;;
  ret Vvoid.

Definition env_CallStaticBooleanMethod (env : JNIEnv JVM)
    (javaClass : jclass) (javaMethod : jmethodID) (arguments : list jvalue)
  : Native jvalue :=
  z <- foreign (CallStaticBooleanMethod env javaClass javaMethod arguments)
         (fun z => EvCallStatic BooleanMethod javaClass javaMethod arguments
                     (Vboolean z)) ;;
  ret (Vboolean z).

Definition env_CallStaticIntMethod (env : JNIEnv JVM)
    (javaClass : jclass) (javaMethod : jmethodID) (arguments : list jvalue)
  : Native jvalue :=
  i <- foreign (CallStaticIntMethod env javaClass javaMethod arguments)
         (fun i => EvCallStatic IntMethod javaClass javaMethod arguments
                     (Vint i)) ;;
  ret (Vint i).

Definition env_CallStaticLongMethod (env : JNIEnv JVM)
    (javaClass : jclass) (javaMethod : jmethodID) (arguments : list jvalue)
  : Native jvalue :=
  j <- foreign (CallStaticLongMethod env javaClass javaMethod arguments)
         (fun j => EvCallStatic LongMethod javaClass javaMethod arguments
                     (Vlong j)) ;;
  ret (Vlong j).

Definition env_CallStaticFloatMethod (env : JNIEnv JVM)
    (javaClass : jclass) (javaMethod : jmethodID) (arguments : list jvalue)
  : Native jvalue :=
  f <- foreign (CallStaticFloatMethod env javaClass javaMethod arguments)
         (fun f => EvCallStatic FloatMethod javaClass javaMethod arguments
                     (Vfloat f)) ;;
  ret (Vfloat f).

Definition env_CallStaticDoubleMethod (env : JNIEnv JVM)
    (javaClass : jclass) (javaMethod : jmethodID) (arguments : list jvalue)
  : Native jvalue :=
  d <- foreign (CallStaticDoubleMethod env javaClass javaMethod arguments)
         (fun d => EvCallStatic DoubleMethod javaClass javaMethod arguments
                     (Vdouble d)) ;;
  ret (Vdouble d).

(** ** [StaticCaller] *)

(** [StaticCaller<ReturnType, ArgumentTypes...>::call]: the primary
    template and its six partial specialisations, one branch each.  The
    specialisations are on [void], [jboolean], [jint], [jlong], [jfloat]
    and [jdouble]; any other [ReturnType] instantiates the primary
    template. *)
Definition StaticCaller (ReturnType : CppType)
    (ArgumentTypes : list JavaType)
    (env : JNIEnv JVM) (javaClass : jclass) (javaMethod : jmethodID)
    (arguments : list jvalue) : Native jvalue :=
  match ReturnType with
  | Java T_void =>
      env_CallStaticVoidMethod env javaClass javaMethod arguments
  | Java T_jboolean =>
      env_CallStaticBooleanMethod env javaClass javaMethod arguments
  | Java T_jint =>
      env_CallStaticIntMethod env javaClass javaMethod arguments
  | Java T_jlong =>
      env_CallStaticLongMethod env javaClass javaMethod arguments
  | Java T_jfloat =>
      env_CallStaticFloatMethod env javaClass javaMethod arguments
  | Java T_jdouble =>
      env_CallStaticDoubleMethod env javaClass javaMethod arguments
  | _ =>
      env_CallStaticObjectMethod env javaClass javaMethod arguments
  end.

(** ** [callStaticMethod] *)

(** [callStaticMethod<ReturnType, ArgumentTypes...>(className, methodName,
    arguments...)]. *)
Definition callStaticMethod (ReturnType : CppType)
    (ArgumentTypes : list CppType)
    (className methodName : string) (arguments : list jvalue)
  : Native Returned :=
  let RealReturnType := Type_ (ToJavaType ReturnType) in
  env <- getCurrentJNIEnvironment ;;
  methodSignature <- getJavaMethodSignature ReturnType ArgumentTypes ;;
  javaClass <- env_FindClass env (c_str className) ;;
  if (javaClass =? nullptr)%N then
    reportInternalError ("class not found [" ++ className ++ "]") ;;
    ret (Value (value_init RealReturnType))
  else
    javaMethod <-
      env_GetStaticMethodID env javaClass
        (c_str methodName) (c_str methodSignature) ;;
    if (javaMethod =? nullptr)%N then
      reportInternalError
        ("method [" ++ methodName ++ "] for class [" ++ className
         ++ "] not found, tried signature [" ++ methodSignature ++ "]") ;;
      ret (Value (value_init RealReturnType))
    else
      result <-
        StaticCaller (CallReturnType (ToJavaType ReturnType))
          (map (fun A => Type_ (ToJavaType A)) ArgumentTypes)
          env javaClass javaMethod arguments ;;
      ret (static_cast RealReturnType result).

(** [callStaticMethod<JavaClassType, ReturnType, ArgumentTypes...>(
    methodName, arguments...)]. *)
Definition callStaticMethod_of (JavaClass : JavaClassType)
    (ReturnType : CppType) (ArgumentTypes : list CppType)
    (methodName : string) (arguments : list jvalue) : Native Returned :=
  callStaticMethod ReturnType ArgumentTypes
    (className JavaClass) methodName arguments.

End Caller.

Arguments jvm {JVM}.
Arguments log {JVM}.
Arguments callStaticMethod {JVM}.
Arguments callStaticMethod_of {JVM}.
Arguments StaticCaller {JVM}.

(** ** The type map, from the specification *)

(** Modelled from the spec: [core/ToJavaType.hpp] is not among the sources.
    The specification names the kinds of native type the binding
    understands (void, boolean, integer, long, float, double, object), has
    the call dispatched on the declared return type and the result returned
    in the caller's expected native type.  So each of the six kinds that is
    not object is kept as it is, for the returned type and for the
    dispatch, and every other type is an object. *)
Definition SpecToJavaType (T : CppType) : ToJavaTypeOf :=
  match T with
  | Java T_void => {| Type_ := T_void; CallReturnType := Java T_void |}
  | Java T_jboolean =>
      {| Type_ := T_jboolean; CallReturnType := Java T_jboolean |}
  | Java T_jint => {| Type_ := T_jint; CallReturnType := Java T_jint |}
  | Java T_jlong => {| Type_ := T_jlong; CallReturnType := Java T_jlong |}
  | Java T_jfloat => {| Type_ := T_jfloat; CallReturnType := Java T_jfloat |}
  | Java T_jdouble =>
      {| Type_ := T_jdouble; CallReturnType := Java T_jdouble |}
  | _ => {| Type_ := T_jobject; CallReturnType := Java T_jobject |}
  end.

(** ** A small runtime to run the calls on *)

Module Demo.

(** Type descriptors of the JNI grammar. *)
Definition descriptor (T : CppType) : string :=
  match T with
  | Java T_void => "V"
  | Java T_jboolean => "Z"
  | Java T_jbyte => "B"
  | Java T_jchar => "C"
  | Java T_jshort => "S"
  | Java T_jint => "I"
  | Java T_jlong => "J"
  | Java T_jfloat => "F"
  | Java T_jdouble => "D"
  | Java T_jobject => "Ljava/lang/Object;"
  | Java (T_jref n) => "L" ++ n ++ ";"
  | Class n => "L" ++ n ++ ";"
  end.

Definition signature (ReturnType : CppType) (ArgumentTypes : list CppType)
  : string :=
  "(" ++ String.concat "" (map descriptor ArgumentTypes) ++ ")"
  ++ descriptor ReturnType.

(** The virtual machine counts the local references it has handed out;
    a class reference is a fresh one at each lookup. *)
Definition JVM : Type := N.

Definition Example : JavaClassType :=
  {| className := "com/class/path/Example" |}.

Definition sumMethod : jmethodID := 7%N.
Definition factoryMethodName : jmethodID := 8%N.
Definition voidMethodName : jmethodID := 9%N.

Definition sum_of (arguments : list jvalue) : Z :=
  fold_right (fun v acc =>
                match v with Vint i => (i + acc)%Z | _ => acc end)
             0%Z arguments.

Definition env : JNIEnv JVM := {|
  FindClass := fun name refs =>
    if String.eqb name "com/class/path/Example"
    then ((100 + refs)%N, (refs + 1)%N)
    else (nullptr, refs);
  GetStaticMethodID := fun _ name sig refs =>
    if String.eqb name "sumMethod" && String.eqb sig "(II)I"
    then (sumMethod, refs)
    else if String.eqb name "factoryMethodName"
            && String.eqb sig "(D)Lcom/class/path/Example;"
    then (factoryMethodName, refs)
    else if String.eqb name "voidMethodName" && String.eqb sig "()V"
    then (voidMethodName, refs)
    else (nullptr, refs);
  CallStaticObjectMethod := fun _ _ _ refs =>
    ((100 + refs)%N, (refs + 1)%N);
  CallStaticVoidMethod := fun _ _ _ refs => (tt, refs);
  CallStaticBooleanMethod := fun _ _ _ refs => (1%Z, refs);
  CallStaticIntMethod := fun _ _ arguments refs => (sum_of arguments, refs);
  CallStaticLongMethod := fun _ _ arguments refs =>
    (sum_of arguments, refs);
  CallStaticFloatMethod := fun _ _ _ refs => (0%Z, refs);
  CallStaticDoubleMethod := fun _ _ _ refs => (0%Z, refs)
|}.

Definition start : World JVM := {| jvm := 0%N; log := [] |}.

(** The same virtual machine, later in the life of the program. *)
Definition later : World JVM :=
  {| jvm := 0%N; log := [EvReport "class not found [Missing]"] |}.

Definition int_int : list CppType := [Java T_jint; Java T_jint].

(** A type map that leaves the types of [jni.h] as they are, for the
    returned type and for the dispatch, and makes an object of a class. *)
Definition unchanged (T : CppType) : ToJavaTypeOf :=
  match T with
  | Java t => {| Type_ := t; CallReturnType := Java t |}
  | Class _ => {| Type_ := T_jobject; CallReturnType := Java T_jobject |}
  end.

(** A runtime in which every class and every method is found. *)
Definition generous : JNIEnv JVM := {|
  FindClass := fun _ refs => ((100 + refs)%N, (refs + 1)%N);
  GetStaticMethodID := fun _ _ _ refs => (7%N, refs);
  CallStaticObjectMethod := fun _ _ _ refs =>
    ((100 + refs)%N, (refs + 1)%N);
  CallStaticVoidMethod := fun _ _ _ refs => (tt, refs);
  CallStaticBooleanMethod := fun _ _ _ refs => (1%Z, refs);
  CallStaticIntMethod := fun _ _ arguments refs => (sum_of arguments, refs);
  CallStaticLongMethod := fun _ _ arguments refs =>
    (sum_of arguments, refs);
  CallStaticFloatMethod := fun _ _ _ refs => (0%Z, refs);
  CallStaticDoubleMethod := fun _ _ _ refs => (0%Z, refs)
|}.

Definition four_five : list jvalue := [Vint 4; Vint 5].

(** The calls of the usage example in the header. *)
Definition call (ReturnType : CppType) (ArgumentTypes : list CppType)
    (className methodName : string) (arguments : list jvalue)
  : Returned * World JVM :=
  runState
    (callStaticMethod env SpecToJavaType signature
       ReturnType ArgumentTypes className methodName arguments)
    start.

End Demo.

(** ** What a call does, in closed form *)

(** The table of the specification: the return type a call is dispatched
    on, and the JNI function that is called for it. *)
Definition variant_of (ReturnType : CppType) : CallVariant :=
  match ReturnType with
  | Java T_void => VoidMethod
  | Java T_jboolean => BooleanMethod
  | Java T_jint => IntMethod
  | Java T_jlong => LongMethod
  | Java T_jfloat => FloatMethod
  | Java T_jdouble => DoubleMethod
  | _ => ObjectMethod
  end.

(** The return types [StaticCaller] is specialised on. *)
Definition specialised (ReturnType : CppType) : bool :=
  match ReturnType with
  | Java (T_void | T_jboolean | T_jint | T_jlong | T_jfloat | T_jdouble) =>
      true
  | _ => false
  end.

(** The JNI function of a variant, its answer as a [jvalue]. *)
Definition CallStatic {JVM : Type} (variant : CallVariant) (env : JNIEnv JVM)
    (javaClass : jclass) (javaMethod : jmethodID) (arguments : list jvalue)
    (j : JVM) : jvalue * JVM :=
  match variant with
  | ObjectMethod =>
      let r := CallStaticObjectMethod env javaClass javaMethod arguments j in
      (Vobject (fst r), snd r)
  | VoidMethod =>
      let r := CallStaticVoidMethod env javaClass javaMethod arguments j in
      (Vvoid, snd r)
  | BooleanMethod =>
      let r := CallStaticBooleanMethod env javaClass javaMethod arguments j in
      (Vboolean (fst r), snd r)
  | IntMethod =>
      let r := CallStaticIntMethod env javaClass javaMethod arguments j in
      (Vint (fst r), snd r)
  | LongMethod =>
      let r := CallStaticLongMethod env javaClass javaMethod arguments j in
      (Vlong (fst r), snd r)
  | FloatMethod =>
      let r := CallStaticFloatMethod env javaClass javaMethod arguments j in
      (Vfloat (fst r), snd r)
  | DoubleMethod =>
      let r := CallStaticDoubleMethod env javaClass javaMethod arguments j in
      (Vdouble (fst r), snd r)
  end.

(** The events a run has added to the log. *)
Definition emitted {JVM : Type} (before after : World JVM) : list Event :=
  skipn (length (log before)) (log after).

(** Projections of a log. *)
Definition is_call (e : Event) : bool :=
  match e with EvCallStatic _ _ _ _ _ => true | _ => false end.

Definition is_class_lookup (e : Event) : bool :=
  match e with EvFindClass _ _ => true | _ => false end.

Definition is_method_lookup (e : Event) : bool :=
  match e with EvGetStaticMethodID _ _ _ _ => true | _ => false end.

Definition is_report (e : Event) : bool :=
  match e with EvReport _ => true | _ => false end.

Definition reports (events : list Event) : list string :=
  flat_map (fun e => match e with EvReport m => [m] | _ => [] end) events.

(** [part] occurs in [whole]. *)
Definition includes (part whole : string) : Prop :=
  exists before after, whole = before ++ part ++ after.

Definition class_not_found (className : string) : string :=
  "class not found [" ++ className ++ "]".

Definition method_not_found (methodName className methodSignature : string)
  : string :=
  "method [" ++ methodName ++ "] for class [" ++ className
  ++ "] not found, tried signature [" ++ methodSignature ++ "]".

Section Run.

Context {JVM : Type}.
Variable env : JNIEnv JVM.
Variable ToJavaType : CppType -> ToJavaTypeOf.
Variable JavaMethodSignature : CppType -> list CppType -> string.

Variable ReturnType : CppType.
Variable ArgumentTypes : list CppType.
Variables className methodName : string.
Variable arguments : list jvalue.

Definition RealReturnType : JavaType := Type_ (ToJavaType ReturnType).

Definition methodSignature : string :=
  JavaMethodSignature ReturnType ArgumentTypes.

(** What the runtime answers to the three calls, from the state [j] of
    the virtual machine the call starts in. *)
Definition class_answer (j : JVM) : jclass * JVM :=
  FindClass env (c_str className) j.

Definition method_answer (j : JVM) : jmethodID * JVM :=
  GetStaticMethodID env (fst (class_answer j))
    (c_str methodName) (c_str methodSignature) (snd (class_answer j)).

Definition call_answer (j : JVM) : jvalue * JVM :=
  CallStatic (variant_of (CallReturnType (ToJavaType ReturnType))) env
    (fst (class_answer j)) (fst (method_answer j)) arguments
    (snd (method_answer j)).

Definition javaClass (w : World JVM) : jclass := fst (class_answer (jvm w)).

Definition javaMethod (w : World JVM) : jmethodID :=
  fst (method_answer (jvm w)).

Definition the_call : Native JVM Returned :=
  callStaticMethod env ToJavaType JavaMethodSignature
    ReturnType ArgumentTypes className methodName arguments.

Definition events_of (w : World JVM) : list Event :=
  emitted w (snd (runState the_call w)).

End Run.

(** The return type of each JNI call variant. *)
Definition result_type (variant : CallVariant) : JavaType :=
  match variant with
  | ObjectMethod => T_jobject
  | VoidMethod => T_void
  | BooleanMethod => T_jboolean
  | IntMethod => T_jint
  | LongMethod => T_jlong
  | FloatMethod => T_jfloat
  | DoubleMethod => T_jdouble
  end.

(** What a call returns, read off the calls it made: the cast of what the
    Java call answered if there was one, the value-initialised result
    otherwise. *)
Definition result_from (T : JavaType) (events : list Event) : Returned :=
  match filter is_call events with
  | EvCallStatic _ _ _ _ answer :: _ => static_cast T answer
  | _ => Value (value_init T)
  end.

(** The reference types: pointers into the [_jobject] hierarchy. *)
Definition is_reference (T : JavaType) : bool :=
  match T with
  | T_jobject | T_jref _ => true
  | _ => false
  end.

(** A JNI call is handed a class or a method only if it is not null. *)
Definition handles_not_null (e : Event) : bool :=
  match e with
  | EvGetStaticMethodID c _ _ _ => negb (c =? nullptr)%N
  | EvCallStatic _ c m _ _ => negb (c =? nullptr)%N && negb (m =? nullptr)%N
  | _ => true
  end.

(** A caller that makes the same call [n] times in a row. *)
Fixpoint repeatedly {JVM : Type} (n : nat) (call : Native JVM Returned)
  : Native JVM unit :=
  match n with
  | O => ret tt
  | S n' => bind call (fun _ => repeatedly n' call)
  end.

(** The steps a call is said to go through, whatever the runtime answers:
    the signature is built, the class is resolved, the method is resolved,
    the arguments are forwarded to a call variant, the result is cast; and
    nothing else.  (Fetching the function table of the thread comes first
    and is not counted against the statement.) *)
Definition steps_as_claimed (ReturnType : CppType)
    (ArgumentTypes : list CppType) (className methodName : string)
    (arguments : list jvalue) (T : JavaType)
    (events : list Event) (result : Returned) : Prop :=
  exists signature c m variant answer,
    events = [EvGetEnvironment;
              EvSignature ReturnType ArgumentTypes signature;
              EvFindClass (c_str className) c;
              EvGetStaticMethodID c (c_str methodName) (c_str signature) m;
              EvCallStatic variant c m arguments answer]
    /\ result = static_cast T answer.

(** ** Properties *)

Lemma append_assoc (a b c : string) : (a ++ b) ++ c = a ++ b ++ c.
Proof.
  induction a as [|x a IH]; simpl.
  - reflexivity.
  - now rewrite IH.
Qed.

Lemma includes_middle (before part after : string) :
  includes part (before ++ part ++ after).
Proof. now exists before, after. Qed.

Lemma static_cast_same_type (T : JavaType) (v : jvalue) :
  has_type T v = true -> static_cast T v = Value v.
Proof. intros H. unfold static_cast. now rewrite H. Qed.

(** A conversion to a narrower type does lose values: whether the cast of
    [callStaticMethod] keeps the value is a matter of the type map. *)
Example static_cast_narrowing :
  static_cast T_jint (Vlong (2 ^ 32 + 5)) = Value (Vint 5).
Proof. reflexivity. Qed.

Example c_str_whole :
  c_str "com/class/path/Example" = "com/class/path/Example".
Proof. reflexivity. Qed.

Example c_str_cut :
  c_str ("Example" ++ String Ascii.zero "Class") = "Example".
Proof. reflexivity. Qed.

Example static_cast_pointer_to_integer :
  static_cast T_jbyte (Vobject 100%N) = IllFormed.
Proof. reflexivity. Qed.

Lemma CallStatic_has_type {JVM : Type} (variant : CallVariant)
    (env : JNIEnv JVM) (c : jclass) (m : jmethodID) (arguments : list jvalue)
    (j : JVM) :
  has_type (result_type variant)
    (fst (CallStatic variant env c m arguments j)) = true.
Proof. destruct variant; reflexivity. Qed.

Lemma variant_of_table :
  variant_of (Java T_void) = VoidMethod
  /\ variant_of (Java T_jboolean) = BooleanMethod
  /\ variant_of (Java T_jint) = IntMethod
  /\ variant_of (Java T_jlong) = LongMethod
  /\ variant_of (Java T_jfloat) = FloatMethod
  /\ variant_of (Java T_jdouble) = DoubleMethod
  /\ (forall T, specialised T = false -> variant_of T = ObjectMethod).
Proof.
  repeat split.
  intros [[]|]; simpl; congruence.
Qed.

Lemma emitted_app {JVM : Type} (w : World JVM) (j : JVM)
    (events : list Event) :
  emitted w {| jvm := j; log := log w ++ events |} = events.
Proof.
  unfold emitted; simpl.
  rewrite skipn_app, skipn_all, Nat.sub_diag. reflexivity.
Qed.

Section Properties.

Context {JVM : Type}.
Variable env : JNIEnv JVM.
Variable ToJavaType : CppType -> ToJavaTypeOf.
Variable JavaMethodSignature : CppType -> list CppType -> string.

(** Each instance of [StaticCaller] makes the one call of its variant. *)
Lemma StaticCaller_run (ReturnType : CppType)
    (ArgumentTypes : list JavaType) (c : jclass) (m : jmethodID)
    (arguments : list jvalue) (w : World JVM) :
  runState (StaticCaller ReturnType ArgumentTypes env c m arguments) w =
    let r := CallStatic (variant_of ReturnType) env c m arguments (jvm w) in
    (fst r,
     {| jvm := snd r;
        log := log w ++ [EvCallStatic (variant_of ReturnType) c m arguments
                           (fst r)] |}).
Proof. destruct ReturnType as [[]|]; reflexivity. Qed.

Variable ReturnType : CppType.
Variable ArgumentTypes : list CppType.
Variables className methodName : string.
Variable arguments : list jvalue.

Local Abbreviation T := (RealReturnType ToJavaType ReturnType).
Local Abbreviation signature :=
  (methodSignature JavaMethodSignature ReturnType ArgumentTypes).
Local Abbreviation variant :=
  (variant_of (CallReturnType (ToJavaType ReturnType))).
Local Abbreviation found := (class_answer env className).
Local Abbreviation method :=
  (method_answer env JavaMethodSignature ReturnType ArgumentTypes
     className methodName).
Local Abbreviation answer :=
  (call_answer env ToJavaType JavaMethodSignature ReturnType ArgumentTypes
     className methodName arguments).
Local Abbreviation call :=
  (the_call env ToJavaType JavaMethodSignature ReturnType ArgumentTypes
     className methodName arguments).
Local Abbreviation events :=
  (events_of env ToJavaType JavaMethodSignature ReturnType ArgumentTypes
     className methodName arguments).
Local Abbreviation class_of :=
  (javaClass env className).
Local Abbreviation method_of :=
  (javaMethod env JavaMethodSignature ReturnType ArgumentTypes
     className methodName).

(** The three ways a call can go. *)
Lemma run_class_not_found (w : World JVM) :
  class_of w = nullptr ->
  runState call w =
    (Value (value_init T),
     {| jvm := snd (found (jvm w));
        log := log w ++ [EvGetEnvironment;
                         EvSignature ReturnType ArgumentTypes signature;
                         EvFindClass (c_str className) nullptr;
                         EvReport (class_not_found className)] |}).
Proof.
  unfold javaClass, the_call, callStaticMethod, class_answer,
    methodSignature, RealReturnType.
  intros Hc. cbn -[append]. rewrite Hc. cbn -[append].
  rewrite <- !app_assoc. reflexivity.
Qed.

Lemma run_method_not_found (w : World JVM) :
  class_of w <> nullptr ->
  method_of w = nullptr ->
  runState call w =
    (Value (value_init T),
     {| jvm := snd (method (jvm w));
        log := log w ++ [EvGetEnvironment;
                         EvSignature ReturnType ArgumentTypes signature;
                         EvFindClass (c_str className) (class_of w);
                         EvGetStaticMethodID (class_of w) (c_str methodName)
                           (c_str signature) nullptr;
                         EvReport (method_not_found methodName className
                                     signature)] |}).
Proof.
  unfold javaMethod, javaClass, the_call, callStaticMethod, method_answer,
    class_answer, methodSignature, RealReturnType.
  intros Hc Hm. apply N.eqb_neq in Hc.
  cbn -[append]. rewrite Hc. cbn -[append]. rewrite Hm. cbn -[append].
  rewrite <- !app_assoc. reflexivity.
Qed.

Lemma run_resolved (w : World JVM) :
  class_of w <> nullptr ->
  method_of w <> nullptr ->
  runState call w =
    (static_cast T (fst (answer (jvm w))),
     {| jvm := snd (answer (jvm w));
        log := log w ++ [EvGetEnvironment;
                         EvSignature ReturnType ArgumentTypes signature;
                         EvFindClass (c_str className) (class_of w);
                         EvGetStaticMethodID (class_of w) (c_str methodName)
                           (c_str signature) (method_of w);
                         EvCallStatic variant (class_of w) (method_of w)
                           arguments (fst (answer (jvm w)))] |}).
Proof.
  unfold javaMethod, javaClass, the_call, callStaticMethod, call_answer,
    method_answer, class_answer, methodSignature, RealReturnType.
  intros Hc Hm. apply N.eqb_neq in Hc. apply N.eqb_neq in Hm.
  cbn -[append StaticCaller]. rewrite Hc.
  cbn -[append StaticCaller]. rewrite Hm.
  cbn -[append StaticCaller]. rewrite StaticCaller_run.
  cbn -[append CallStatic]. rewrite <- !app_assoc. reflexivity.
Qed.

Lemma events_class_not_found (w : World JVM) :
  class_of w = nullptr ->
  events w = [EvGetEnvironment;
              EvSignature ReturnType ArgumentTypes signature;
              EvFindClass (c_str className) nullptr;
              EvReport (class_not_found className)].
Proof.
  intros Hc. unfold events_of.
  rewrite (run_class_not_found w Hc). apply emitted_app.
Qed.

Lemma events_method_not_found (w : World JVM) :
  class_of w <> nullptr ->
  method_of w = nullptr ->
  events w = [EvGetEnvironment;
              EvSignature ReturnType ArgumentTypes signature;
              EvFindClass (c_str className) (class_of w);
              EvGetStaticMethodID (class_of w) (c_str methodName)
                (c_str signature) nullptr;
              EvReport (method_not_found methodName className signature)].
Proof.
  intros Hc Hm. unfold events_of.
  rewrite (run_method_not_found w Hc Hm). apply emitted_app.
Qed.

Lemma events_resolved (w : World JVM) :
  class_of w <> nullptr ->
  method_of w <> nullptr ->
  events w = [EvGetEnvironment;
              EvSignature ReturnType ArgumentTypes signature;
              EvFindClass (c_str className) (class_of w);
              EvGetStaticMethodID (class_of w) (c_str methodName)
                (c_str signature) (method_of w);
              EvCallStatic variant (class_of w) (method_of w) arguments
                (fst (answer (jvm w)))].
Proof.
  intros Hc Hm. unfold events_of.
  rewrite (run_resolved w Hc Hm). apply emitted_app.
Qed.

(** The log only grows. *)
Lemma log_extended (w : World JVM) :
  log (snd (runState call w)) = (log w ++ events w)%list.
Proof.
  destruct (N.eq_dec (class_of w) nullptr) as [Hc|Hc].
  - rewrite (events_class_not_found w Hc), (run_class_not_found w Hc).
    reflexivity.
  - destruct (N.eq_dec (method_of w) nullptr) as [Hm|Hm].
    + rewrite (events_method_not_found w Hc Hm),
        (run_method_not_found w Hc Hm).
      reflexivity.
    + rewrite (events_resolved w Hc Hm), (run_resolved w Hc Hm).
      reflexivity.
Qed.

(** Every call goes one of the three ways. *)
Lemma run_cases (w : World JVM) :
  (class_of w = nullptr
   /\ events w = [EvGetEnvironment;
                  EvSignature ReturnType ArgumentTypes signature;
                  EvFindClass (c_str className) nullptr;
                  EvReport (class_not_found className)]
   /\ fst (runState call w) = Value (value_init T))
  \/ (class_of w <> nullptr /\ method_of w = nullptr
      /\ events w = [EvGetEnvironment;
                     EvSignature ReturnType ArgumentTypes signature;
                     EvFindClass (c_str className) (class_of w);
                     EvGetStaticMethodID (class_of w) (c_str methodName)
                       (c_str signature) nullptr;
                     EvReport (method_not_found methodName className
                                 signature)]
      /\ fst (runState call w) = Value (value_init T))
  \/ (class_of w <> nullptr /\ method_of w <> nullptr
      /\ events w = [EvGetEnvironment;
                     EvSignature ReturnType ArgumentTypes signature;
                     EvFindClass (c_str className) (class_of w);
                     EvGetStaticMethodID (class_of w) (c_str methodName)
                       (c_str signature) (method_of w);
                     EvCallStatic variant (class_of w) (method_of w)
                       arguments (fst (answer (jvm w)))]
      /\ fst (runState call w) = static_cast T (fst (answer (jvm w)))).
Proof.
  destruct (N.eq_dec (class_of w) nullptr) as [Hc|Hc].
  - left. split; [exact Hc|]. split.
    + exact (events_class_not_found w Hc).
    + now rewrite (run_class_not_found w Hc).
  - destruct (N.eq_dec (method_of w) nullptr) as [Hm|Hm].
    + right; left. repeat split; try assumption.
      * exact (events_method_not_found w Hc Hm).
      * now rewrite (run_method_not_found w Hc Hm).
    + right; right. repeat split; try assumption.
      * exact (events_resolved w Hc Hm).
      * now rewrite (run_resolved w Hc Hm).
Qed.

(** When the cast is to the type the variant returns, or between
    reference types, the caller gets the very value the variant
    answered. *)
Lemma result_kept (w : World JVM) :
  class_of w <> nullptr ->
  method_of w <> nullptr ->
  has_type T (fst (answer (jvm w))) = true ->
  fst (runState call w) = Value (fst (answer (jvm w))).
Proof.
  intros Hc Hm Ht. rewrite (run_resolved w Hc Hm). simpl.
  now apply static_cast_same_type.
Qed.

(** C1: a call whose class and method resolve invokes exactly one JNI
    call function, the one [variant_of] gives for the return type the
    call is dispatched on ([void] to CallStaticVoidMethod, [jboolean] to
    CallStaticBooleanMethod, [jint] to CallStaticIntMethod, [jlong] to
    CallStaticLongMethod, [jfloat] to CallStaticFloatMethod, [jdouble] to
    CallStaticDoubleMethod, anything else to CallStaticObjectMethod), and
    invokes it on the resolved class, the resolved method and the
    arguments as they were given. *)
Theorem callStaticMethod_invokes_selected_variant (w : World JVM) :
  class_of w <> nullptr ->
  method_of w <> nullptr ->
  filter is_call (events w) =
    [EvCallStatic variant (class_of w) (method_of w) arguments
       (fst (CallStatic variant env (class_of w) (method_of w) arguments
               (snd (method (jvm w)))))].
Proof.
  intros Hc Hm. rewrite (events_resolved w Hc Hm). reflexivity.
Qed.

(** C2: a call fails in two cases and no other, the class is not found
    or the method is not found under the computed signature; in both it
    reports one diagnostic and returns the value-initialised result.  In
    every other case nothing is reported and the result of the call
    variant is returned, cast to the return type. *)
Theorem callStaticMethod_failure_conditions (w : World JVM) :
  (class_of w = nullptr
   /\ reports (events w) = [class_not_found className]
   /\ fst (runState call w) = Value (value_init T))
  \/ (class_of w <> nullptr /\ method_of w = nullptr
      /\ reports (events w) =
           [method_not_found methodName className signature]
      /\ fst (runState call w) = Value (value_init T))
  \/ (class_of w <> nullptr /\ method_of w <> nullptr
      /\ reports (events w) = []
      /\ fst (runState call w) = static_cast T (fst (answer (jvm w)))).
Proof.
  destruct (run_cases w) as [(Hc & He & Hr)|[(Hc & Hm & He & Hr)
                                            |(Hc & Hm & He & Hr)]];
    [left | right; left | right; right];
    rewrite He; repeat split; assumption.
Qed.

(** C3: when FindClass returns null the call stops there: no method is
    looked up, no Java method is called, the one diagnostic names the
    class and the value-initialised result is returned.  When
    GetStaticMethodID returns null no Java method is called either. *)
Theorem callStaticMethod_short_circuits (w : World JVM) :
  (class_of w = nullptr ->
   filter is_method_lookup (events w) = []
   /\ filter is_call (events w) = []
   /\ (exists message,
         reports (events w) = [message] /\ includes className message)
   /\ fst (runState call w) = Value (value_init T))
  /\ (class_of w <> nullptr -> method_of w = nullptr ->
      filter is_call (events w) = []).
Proof.
  split.
  - intros Hc. rewrite (events_class_not_found w Hc).
    repeat split.
    + exists (class_not_found className). split; [reflexivity|].
      apply includes_middle.
    + now rewrite (run_class_not_found w Hc).
  - intros Hc Hm. now rewrite (events_method_not_found w Hc Hm).
Qed.

(** C4, amended: a call fetches the function table of the thread, builds
    the signature and resolves the class.  If the class is not found it
    reports that and returns the value-initialised result.  Otherwise it
    resolves the method; if the method is not found it reports that and
    returns the value-initialised result.  Otherwise it forwards the
    arguments to the call variant and returns the cast of what the
    variant answers.  It does nothing else, and always in this order. *)
Theorem callStaticMethod_steps (w : World JVM) :
  (class_of w = nullptr
   /\ events w = [EvGetEnvironment;
                  EvSignature ReturnType ArgumentTypes signature;
                  EvFindClass (c_str className) nullptr;
                  EvReport (class_not_found className)]
   /\ fst (runState call w) = Value (value_init T))
  \/ (class_of w <> nullptr /\ method_of w = nullptr
      /\ events w = [EvGetEnvironment;
                     EvSignature ReturnType ArgumentTypes signature;
                     EvFindClass (c_str className) (class_of w);
                     EvGetStaticMethodID (class_of w) (c_str methodName)
                       (c_str signature) nullptr;
                     EvReport (method_not_found methodName className
                                 signature)]
      /\ fst (runState call w) = Value (value_init T))
  \/ (class_of w <> nullptr /\ method_of w <> nullptr
      /\ steps_as_claimed ReturnType ArgumentTypes className methodName
           arguments T (events w) (fst (runState call w))
      /\ events w = [EvGetEnvironment;
                     EvSignature ReturnType ArgumentTypes signature;
                     EvFindClass (c_str className) (class_of w);
                     EvGetStaticMethodID (class_of w) (c_str methodName)
                       (c_str signature) (method_of w);
                     EvCallStatic variant (class_of w) (method_of w)
                       arguments (fst (answer (jvm w)))]
      /\ fst (runState call w) = static_cast T (fst (answer (jvm w)))).
Proof.
  destruct (run_cases w) as [H|[H|(Hc & Hm & He & Hr)]].
  - now left.
  - now right; left.
  - right; right. repeat split; try assumption.
    exists signature, (class_of w), (method_of w), variant,
      (fst (answer (jvm w))).
    now split.
Qed.

(** C6: within one call the class is looked up once, the method at most
    once and a Java method is called at most once: no lookup is tried
    again, whether it failed or not, and the call returns after at most
    five calls out of the header. *)
Theorem callStaticMethod_no_retry (w : World JVM) :
  length (filter is_class_lookup (events w)) = 1
  /\ length (filter is_method_lookup (events w)) <= 1
  /\ length (filter is_call (events w)) <= 1
  /\ length (events w) <= 5.
Proof.
  destruct (run_cases w) as [(_ & He & _)|[(_ & _ & He & _)
                                          |(_ & _ & He & _)]];
    rewrite He; simpl; lia.
Qed.

(** C8: when the method is not found, the signature was computed from
    the return and argument types alone, before the class and the method
    were looked up; it is the signature the method was looked up with;
    and the diagnostic includes the method name, the class name and this
    signature. *)
Theorem callStaticMethod_method_not_found_diagnostic (w : World JVM) :
  class_of w <> nullptr ->
  method_of w = nullptr ->
  exists message,
    events w =
      [EvGetEnvironment;
       EvSignature ReturnType ArgumentTypes
         (JavaMethodSignature ReturnType ArgumentTypes);
       EvFindClass (c_str className) (class_of w);
       EvGetStaticMethodID (class_of w) (c_str methodName)
         (c_str (JavaMethodSignature ReturnType ArgumentTypes)) nullptr;
       EvReport message]
    /\ includes methodName message
    /\ includes className message
    /\ includes (JavaMethodSignature ReturnType ArgumentTypes) message.
Proof.
  intros Hc Hm.
  exists (method_not_found methodName className signature).
  split; [exact (events_method_not_found w Hc Hm)|].
  unfold method_not_found, methodSignature. repeat split.
  - apply includes_middle.
  - rewrite <- (append_assoc methodName), <- (append_assoc "method [").
    apply includes_middle.
  - exists ("method [" ++ methodName ++ "] for class [" ++ className
            ++ "] not found, tried signature ["), "]".
    now rewrite !append_assoc.
Qed.

Local Abbreviation after earlier w := (snd (runState earlier w)).

(** C7: a call keeps nothing from one invocation to the next.  What came
    before has no influence beyond the state of the virtual machine; a
    second invocation looks the class up again, from the state the first
    one left; and the result is a function of the return type and of
    what the runtime answered.  Whatever ran before it, earlier
    invocations included, an invocation asks the runtime for the class
    in the state the virtual machine is in then, asks it for the method
    with the class it was just given, and calls the Java method with the
    class and the method it was just given, never with handles of an
    earlier invocation.  When it returns, the state is the state the
    last JNI function left and the log with these calls added, no call
    that would keep a handle alive among them, and the result is the
    value-initialised one or the cast of what the Java method answered:
    neither handle is in it. *)
Theorem callStaticMethod_keeps_no_state :
  (forall w1 w2 : World JVM,
      jvm w1 = jvm w2 ->
      fst (runState call w1) = fst (runState call w2)
      /\ jvm (snd (runState call w1)) = jvm (snd (runState call w2))
      /\ events w1 = events w2)
  /\ (forall w : World JVM,
        emitted w (snd (runState (bind call (fun _ => call)) w)) =
          (events w ++ events (snd (runState call w)))%list
        /\ length (filter is_class_lookup
                     (events w ++ events (snd (runState call w)))) = 2)
  /\ (forall w : World JVM,
        fst (runState call w) = result_from T (events w))
  /\ (forall (A : Type) (earlier : Native JVM A) (w : World JVM),
        runState (bind earlier (fun _ => call)) w =
          runState call (after earlier w)
        /\ class_of (after earlier w) =
             fst (FindClass env (c_str className) (jvm (after earlier w)))
        /\ method_of (after earlier w) =
             fst (GetStaticMethodID env (class_of (after earlier w))
                    (c_str methodName) (c_str signature)
                    (snd (FindClass env (c_str className)
                            (jvm (after earlier w)))))
        /\ fst (answer (jvm (after earlier w))) =
             fst (CallStatic variant env (class_of (after earlier w))
                    (method_of (after earlier w)) arguments
                    (snd (method (jvm (after earlier w)))))
        /\ ((class_of (after earlier w) = nullptr
             /\ runState call (after earlier w) =
                  (Value (value_init T),
                   {| jvm := snd (found (jvm (after earlier w)));
                      log := log (after earlier w) ++
                        [EvGetEnvironment;
                         EvSignature ReturnType ArgumentTypes signature;
                         EvFindClass (c_str className) nullptr;
                         EvReport (class_not_found className)] |}))
            \/ (class_of (after earlier w) <> nullptr
                /\ method_of (after earlier w) = nullptr
                /\ runState call (after earlier w) =
                     (Value (value_init T),
                      {| jvm := snd (method (jvm (after earlier w)));
                         log := log (after earlier w) ++
                           [EvGetEnvironment;
                            EvSignature ReturnType ArgumentTypes signature;
                            EvFindClass (c_str className)
                              (class_of (after earlier w));
                            EvGetStaticMethodID (class_of (after earlier w))
                              (c_str methodName) (c_str signature) nullptr;
                            EvReport (method_not_found methodName className
                                        signature)] |}))
            \/ (class_of (after earlier w) <> nullptr
                /\ method_of (after earlier w) <> nullptr
                /\ runState call (after earlier w) =
                     (static_cast T (fst (answer (jvm (after earlier w)))),
                      {| jvm := snd (answer (jvm (after earlier w)));
                         log := log (after earlier w) ++
                           [EvGetEnvironment;
                            EvSignature ReturnType ArgumentTypes signature;
                            EvFindClass (c_str className)
                              (class_of (after earlier w));
                            EvGetStaticMethodID (class_of (after earlier w))
                              (c_str methodName) (c_str signature)
                              (method_of (after earlier w));
                            EvCallStatic variant
                              (class_of (after earlier w))
                              (method_of (after earlier w)) arguments
                              (fst (answer (jvm (after earlier w))))] |})))).
Proof.
  split; [|split; [|split]].
  - intros w1 w2 Hj.
    assert (Hc : class_of w1 = class_of w2)
      by (unfold javaClass; now rewrite Hj).
    assert (Hm : method_of w1 = method_of w2)
      by (unfold javaMethod; now rewrite Hj).
    destruct (N.eq_dec (class_of w1) nullptr) as [Hc1|Hc1].
    + assert (Hc2 : class_of w2 = nullptr) by congruence.
      rewrite (events_class_not_found w1 Hc1),
        (events_class_not_found w2 Hc2),
        (run_class_not_found w1 Hc1), (run_class_not_found w2 Hc2).
      simpl. now rewrite Hj.
    + assert (Hc2 : class_of w2 <> nullptr) by congruence.
      destruct (N.eq_dec (method_of w1) nullptr) as [Hm1|Hm1].
      * assert (Hm2 : method_of w2 = nullptr) by congruence.
        rewrite (events_method_not_found w1 Hc1 Hm1),
          (events_method_not_found w2 Hc2 Hm2),
          (run_method_not_found w1 Hc1 Hm1),
          (run_method_not_found w2 Hc2 Hm2).
        simpl. now rewrite Hj, Hc.
      * assert (Hm2 : method_of w2 <> nullptr) by congruence.
        rewrite (events_resolved w1 Hc1 Hm1),
          (events_resolved w2 Hc2 Hm2),
          (run_resolved w1 Hc1 Hm1), (run_resolved w2 Hc2 Hm2).
        simpl. now rewrite Hj, Hc, Hm.
  - intros w. split.
    + unfold emitted. cbn [bind Monad_state runState].
      destruct (runState call w) as [r1 w1] eqn:E1.
      pose proof (log_extended w) as L1. rewrite E1 in L1. simpl in L1.
      pose proof (log_extended w1) as L2.
      change (snd (r1, w1)) with w1.
      rewrite L2, L1, <- app_assoc, skipn_app, skipn_all, Nat.sub_diag.
      unfold events_of at 1. rewrite E1. simpl.
      unfold emitted. rewrite L1, skipn_app, skipn_all, Nat.sub_diag.
      reflexivity.
    + rewrite filter_app, length_app.
      destruct (run_cases w) as [(_ & He & _)|[(_ & _ & He & _)
                                              |(_ & _ & He & _)]];
        rewrite He;
        destruct (run_cases (snd (runState call w)))
          as [(_ & He' & _)|[(_ & _ & He' & _)|(_ & _ & He' & _)]];
        rewrite He'; reflexivity.
  - intros w.
    destruct (run_cases w) as [(_ & E & R)|[(_ & _ & E & R)
                                           |(_ & _ & E & R)]];
      rewrite E, R; reflexivity.
  - intros A earlier w. split.
    + cbn [bind Monad_state runState].
      destruct (runState earlier w) as [a w1]. reflexivity.
    + split; [reflexivity|]. split; [reflexivity|]. split; [reflexivity|].
      destruct (N.eq_dec (class_of (after earlier w)) nullptr) as [Hc|Hc].
      * left. split; [exact Hc|].
        exact (run_class_not_found (after earlier w) Hc).
      * destruct (N.eq_dec (method_of (after earlier w)) nullptr)
          as [Hm|Hm].
        -- right; left. split; [exact Hc|]. split; [exact Hm|].
           exact (run_method_not_found (after earlier w) Hc Hm).
        -- right; right. split; [exact Hc|]. split; [exact Hm|].
           exact (run_resolved (after earlier w) Hc Hm).
Qed.

End Properties.

(** ** The cast, under the type map of the specification *)

Lemma SpecToJavaType_result_type (ReturnType : CppType) :
  Type_ (SpecToJavaType ReturnType) =
    result_type (variant_of (CallReturnType (SpecToJavaType ReturnType))).
Proof. destruct ReturnType as [[]|]; reflexivity. Qed.

(** Under that map the call is dispatched on the declared return type
    itself. *)
Lemma SpecToJavaType_dispatch (ReturnType : CppType) :
  variant_of (CallReturnType (SpecToJavaType ReturnType)) =
    variant_of ReturnType.
Proof. destruct ReturnType as [[]|]; reflexivity. Qed.

(** C5: when the class and the method resolve, what the call variant
    answers already has the type the caller expects, and the caller gets
    that very value: the cast loses nothing. *)
Theorem callStaticMethod_result_lossless {JVM : Type} (env : JNIEnv JVM)
    (JavaMethodSignature : CppType -> list CppType -> string)
    (ReturnType : CppType) (ArgumentTypes : list CppType)
    (className methodName : string) (arguments : list jvalue)
    (w : World JVM) :
  javaClass env className w <> nullptr ->
  javaMethod env JavaMethodSignature ReturnType ArgumentTypes
    className methodName w <> nullptr ->
  has_type (RealReturnType SpecToJavaType ReturnType)
    (fst (call_answer env SpecToJavaType JavaMethodSignature ReturnType
            ArgumentTypes className methodName arguments (jvm w))) = true
  /\ fst (runState
            (callStaticMethod env SpecToJavaType JavaMethodSignature
               ReturnType ArgumentTypes className methodName arguments) w) =
       Value (fst (call_answer env SpecToJavaType JavaMethodSignature
                     ReturnType ArgumentTypes className methodName arguments
                     (jvm w))).
Proof.
  intros Hc Hm.
  assert (Ht : has_type (RealReturnType SpecToJavaType ReturnType)
                 (fst (call_answer env SpecToJavaType JavaMethodSignature
                         ReturnType ArgumentTypes className methodName
                         arguments (jvm w))) = true).
  { unfold RealReturnType, call_answer.
    rewrite SpecToJavaType_result_type. apply CallStatic_has_type. }
  split; [exact Ht|].
  exact (result_kept env SpecToJavaType JavaMethodSignature ReturnType
           ArgumentTypes className methodName arguments w Hc Hm Ht).
Qed.

Lemma callStaticMethod_result_lossless_witness :
  javaClass Demo.env "com/class/path/Example" Demo.start <> nullptr
  /\ javaMethod Demo.env Demo.signature (Java T_jint) Demo.int_int
       "com/class/path/Example" "sumMethod" Demo.start <> nullptr
  /\ has_type T_jint (Vint 9) = true
  /\ fst (Demo.call (Java T_jint) Demo.int_int
            "com/class/path/Example" "sumMethod" Demo.four_five) =
       Value (Vint 9).
Proof.
  assert (Hc : javaClass Demo.env "com/class/path/Example" Demo.start
               <> nullptr)
    by (vm_compute; discriminate).
  assert (Hm : javaMethod Demo.env Demo.signature (Java T_jint) Demo.int_int
                 "com/class/path/Example" "sumMethod" Demo.start <> nullptr)
    by (vm_compute; discriminate).
  split; [exact Hc|]. split; [exact Hm|].
  exact (callStaticMethod_result_lossless Demo.env Demo.signature
           (Java T_jint) Demo.int_int "com/class/path/Example" "sumMethod"
           Demo.four_five Demo.start Hc Hm).
Defined.

(** ** The class-typed overload *)

(** C9: the overload that takes the class as a type argument does what the
    primary overload does when given the name of that class: same result,
    same calls, same state of the virtual machine afterwards. *)
Theorem callStaticMethod_of_className {JVM : Type} (env : JNIEnv JVM)
    (ToJavaType : CppType -> ToJavaTypeOf)
    (JavaMethodSignature : CppType -> list CppType -> string)
    (JavaClass : JavaClassType)
    (ReturnType : CppType) (ArgumentTypes : list CppType)
    (methodName : string) (arguments : list jvalue) (w : World JVM) :
  runState
    (callStaticMethod_of env ToJavaType JavaMethodSignature JavaClass
       ReturnType ArgumentTypes methodName arguments) w =
  runState
    (callStaticMethod env ToJavaType JavaMethodSignature
       ReturnType ArgumentTypes (className JavaClass) methodName arguments) w.
Proof. reflexivity. Qed.

Example callStaticMethod_of_Example :
  runState
    (callStaticMethod_of Demo.env SpecToJavaType Demo.signature Demo.Example
       (Java T_jint) Demo.int_int "sumMethod" Demo.four_five) Demo.start =
  (Value (Vint 9),
   {| jvm := 1%N;
      log := [EvGetEnvironment;
              EvSignature (Java T_jint) Demo.int_int "(II)I";
              EvFindClass "com/class/path/Example" 100%N;
              EvGetStaticMethodID 100%N "sumMethod" "(II)I" 7%N;
              EvCallStatic IntMethod 100%N 7%N Demo.four_five (Vint 9)] |}).
Proof. reflexivity. Qed.

(** ** Return types without a specialisation *)

(** C10: a return type [StaticCaller] has no specialisation for ([jbyte],
    [jchar], [jshort] and every class type among them) instantiates the
    primary template: the one call made is CallStaticObjectMethod, never
    the JNI call of a narrow primitive type, and [callStaticMethod] returns
    the [jobject] it answers, cast to the caller's type. *)
Theorem StaticCaller_primary_template {JVM : Type} (env : JNIEnv JVM) :
  (specialised (Java T_jbyte) = false
   /\ specialised (Java T_jchar) = false
   /\ specialised (Java T_jshort) = false
   /\ forall name, specialised (Class name) = false)
  /\ (forall (ReturnType : CppType) (ArgumentTypes : list JavaType)
        (c : jclass) (m : jmethodID) (arguments : list jvalue)
        (w : World JVM),
        specialised ReturnType = false ->
        runState (StaticCaller ReturnType ArgumentTypes env c m arguments) w =
          (Vobject (fst (CallStaticObjectMethod env c m arguments (jvm w))),
           {| jvm := snd (CallStaticObjectMethod env c m arguments (jvm w));
              log := log w ++
                [EvCallStatic ObjectMethod c m arguments
                   (Vobject
                      (fst (CallStaticObjectMethod env c m arguments
                              (jvm w))))] |}))
  /\ (forall (ToJavaType : CppType -> ToJavaTypeOf)
        (JavaMethodSignature : CppType -> list CppType -> string)
        (ReturnType : CppType) (ArgumentTypes : list CppType)
        (className methodName : string) (arguments : list jvalue)
        (w : World JVM),
        specialised (CallReturnType (ToJavaType ReturnType)) = false ->
        javaClass env className w <> nullptr ->
        javaMethod env JavaMethodSignature ReturnType ArgumentTypes
          className methodName w <> nullptr ->
        exists l : jobject,
          filter is_call
            (events_of env ToJavaType JavaMethodSignature ReturnType
               ArgumentTypes className methodName arguments w) =
            [EvCallStatic ObjectMethod (javaClass env className w)
               (javaMethod env JavaMethodSignature ReturnType ArgumentTypes
                  className methodName w)
               arguments (Vobject l)]
          /\ fst (runState
                    (callStaticMethod env ToJavaType JavaMethodSignature
                       ReturnType ArgumentTypes className methodName
                       arguments) w) =
               static_cast (Type_ (ToJavaType ReturnType)) (Vobject l)).
Proof.
  split; [now repeat split|]. split.
  - intros ReturnType ArgumentTypes c m arguments w Hs.
    rewrite StaticCaller_run.
    destruct variant_of_table as (_ & _ & _ & _ & _ & _ & Hv).
    rewrite (Hv ReturnType Hs). reflexivity.
  - intros ToJavaType JavaMethodSignature ReturnType ArgumentTypes
      className methodName arguments w Hs Hc Hm.
    destruct variant_of_table as (_ & _ & _ & _ & _ & _ & Hv).
    rewrite (events_resolved env ToJavaType JavaMethodSignature ReturnType
               ArgumentTypes className methodName arguments w Hc Hm).
    pose proof (run_resolved env ToJavaType JavaMethodSignature ReturnType
                  ArgumentTypes className methodName arguments w Hc Hm) as R.
    unfold the_call in R. rewrite R. clear R.
    unfold call_answer, RealReturnType. rewrite (Hv _ Hs). simpl.
    eexists. split; reflexivity.
Qed.

(** ** The calls of the usage example, run *)

Example sumMethod_run :
  Demo.call (Java T_jint) Demo.int_int "com/class/path/Example" "sumMethod"
    Demo.four_five =
  (Value (Vint 9),
   {| jvm := 1%N;
      log := [EvGetEnvironment;
              EvSignature (Java T_jint) Demo.int_int "(II)I";
              EvFindClass "com/class/path/Example" 100%N;
              EvGetStaticMethodID 100%N "sumMethod" "(II)I" 7%N;
              EvCallStatic IntMethod 100%N 7%N Demo.four_five (Vint 9)] |}).
Proof. reflexivity. Qed.

Example voidMethodName_run :
  Demo.call (Java T_void) [] "com/class/path/Example" "voidMethodName" [] =
  (Value Vvoid,
   {| jvm := 1%N;
      log := [EvGetEnvironment;
              EvSignature (Java T_void) [] "()V";
              EvFindClass "com/class/path/Example" 100%N;
              EvGetStaticMethodID 100%N "voidMethodName" "()V" 9%N;
              EvCallStatic VoidMethod 100%N 9%N [] Vvoid] |}).
Proof. reflexivity. Qed.

Example factoryMethodName_run :
  Demo.call (Class "com/class/path/Example") [Java T_jdouble]
    "com/class/path/Example" "factoryMethodName" [Vdouble 3] =
  (Value (Vobject 101%N),
   {| jvm := 2%N;
      log := [EvGetEnvironment;
              EvSignature (Class "com/class/path/Example") [Java T_jdouble]
                "(D)Lcom/class/path/Example;";
              EvFindClass "com/class/path/Example" 100%N;
              EvGetStaticMethodID 100%N "factoryMethodName"
                "(D)Lcom/class/path/Example;" 8%N;
              EvCallStatic ObjectMethod 100%N 8%N [Vdouble 3]
                (Vobject 101%N)] |}).
Proof. reflexivity. Qed.

(** Two calls in a row: the second one looks the class up again and works
    with the reference it is given then. *)
Example sumMethod_twice :
  log (snd (runState
              (bind
                 (callStaticMethod Demo.env SpecToJavaType Demo.signature
                    (Java T_jint) Demo.int_int "com/class/path/Example"
                    "sumMethod" Demo.four_five)
                 (fun _ =>
                    callStaticMethod Demo.env SpecToJavaType Demo.signature
                      (Java T_jint) Demo.int_int "com/class/path/Example"
                      "sumMethod" Demo.four_five))
              Demo.start)) =
  [EvGetEnvironment;
   EvSignature (Java T_jint) Demo.int_int "(II)I";
   EvFindClass "com/class/path/Example" 100%N;
   EvGetStaticMethodID 100%N "sumMethod" "(II)I" 7%N;
   EvCallStatic IntMethod 100%N 7%N Demo.four_five (Vint 9);
   EvGetEnvironment;
   EvSignature (Java T_jint) Demo.int_int "(II)I";
   EvFindClass "com/class/path/Example" 101%N;
   EvGetStaticMethodID 101%N "sumMethod" "(II)I" 7%N;
   EvCallStatic IntMethod 101%N 7%N Demo.four_five (Vint 9)].
Proof. reflexivity. Qed.

(** ** The theorems at work on the small runtime *)

Lemma callStaticMethod_invokes_selected_variant_witness :
  javaClass Demo.env "com/class/path/Example" Demo.start <> nullptr
  /\ javaMethod Demo.env Demo.signature (Java T_jint) Demo.int_int
       "com/class/path/Example" "sumMethod" Demo.start <> nullptr
  /\ filter is_call
       (events_of Demo.env SpecToJavaType Demo.signature (Java T_jint)
          Demo.int_int "com/class/path/Example" "sumMethod" Demo.four_five
          Demo.start) =
     [EvCallStatic IntMethod 100%N 7%N Demo.four_five (Vint 9)].
Proof.
  assert (Hc : javaClass Demo.env "com/class/path/Example" Demo.start
               <> nullptr)
    by (vm_compute; discriminate).
  assert (Hm : javaMethod Demo.env Demo.signature (Java T_jint) Demo.int_int
                 "com/class/path/Example" "sumMethod" Demo.start <> nullptr)
    by (vm_compute; discriminate).
  split; [exact Hc|]. split; [exact Hm|].
  exact (callStaticMethod_invokes_selected_variant Demo.env SpecToJavaType
           Demo.signature (Java T_jint) Demo.int_int "com/class/path/Example"
           "sumMethod" Demo.four_five Demo.start Hc Hm).
Defined.

Lemma callStaticMethod_short_circuits_witness :
  (javaClass Demo.env "com/class/path/Nope" Demo.start = nullptr
   /\ filter is_method_lookup
        (events_of Demo.env SpecToJavaType Demo.signature (Java T_jint)
           Demo.int_int "com/class/path/Nope" "sumMethod" Demo.four_five
           Demo.start) = []
   /\ filter is_call
        (events_of Demo.env SpecToJavaType Demo.signature (Java T_jint)
           Demo.int_int "com/class/path/Nope" "sumMethod" Demo.four_five
           Demo.start) = []
   /\ fst (Demo.call (Java T_jint) Demo.int_int "com/class/path/Nope"
             "sumMethod" Demo.four_five) = Value (Vint 0))
  /\ (javaClass Demo.env "com/class/path/Example" Demo.start <> nullptr
      /\ javaMethod Demo.env Demo.signature (Java T_jint) Demo.int_int
           "com/class/path/Example" "noSuchMethod" Demo.start = nullptr
      /\ filter is_call
           (events_of Demo.env SpecToJavaType Demo.signature (Java T_jint)
              Demo.int_int "com/class/path/Example" "noSuchMethod"
              Demo.four_five Demo.start) = []).
Proof.
  split.
  - assert (Hc : javaClass Demo.env "com/class/path/Nope" Demo.start
                 = nullptr) by reflexivity.
    split; [exact Hc|].
    destruct (proj1 (callStaticMethod_short_circuits Demo.env SpecToJavaType
                       Demo.signature (Java T_jint) Demo.int_int
                       "com/class/path/Nope" "sumMethod" Demo.four_five
                       Demo.start) Hc) as (H1 & H2 & _ & H4).
    split; [exact H1|]. split; [exact H2|exact H4].
  - assert (Hc : javaClass Demo.env "com/class/path/Example" Demo.start
                 <> nullptr)
      by (vm_compute; discriminate).
    assert (Hm : javaMethod Demo.env Demo.signature (Java T_jint)
                   Demo.int_int "com/class/path/Example" "noSuchMethod"
                   Demo.start = nullptr) by reflexivity.
    split; [exact Hc|]. split; [exact Hm|].
    exact (proj2 (callStaticMethod_short_circuits Demo.env SpecToJavaType
                    Demo.signature (Java T_jint) Demo.int_int
                    "com/class/path/Example" "noSuchMethod" Demo.four_five
                    Demo.start) Hc Hm).
Defined.

(** C4 as it is stated fails on a class that does not exist: the method is
    never looked up, nothing is called, and an error is reported. *)
Lemma callStaticMethod_steps_counterexample :
  ~ steps_as_claimed (Java T_jint) Demo.int_int "com/class/path/Nope"
      "sumMethod" Demo.four_five T_jint
      (log (snd (Demo.call (Java T_jint) Demo.int_int "com/class/path/Nope"
                   "sumMethod" Demo.four_five)))
      (fst (Demo.call (Java T_jint) Demo.int_int "com/class/path/Nope"
              "sumMethod" Demo.four_five)).
Proof.
  intros (signature & c & m & variant & answer & H & _).
  vm_compute in H. discriminate H.
Qed.

Lemma callStaticMethod_method_not_found_diagnostic_witness :
  javaClass Demo.env "com/class/path/Example" Demo.start <> nullptr
  /\ javaMethod Demo.env Demo.signature (Java T_jint) [Java T_jint]
       "com/class/path/Example" "sumMethod" Demo.start = nullptr
  /\ exists message,
       events_of Demo.env SpecToJavaType Demo.signature (Java T_jint)
         [Java T_jint] "com/class/path/Example" "sumMethod" [Vint 4]
         Demo.start =
       [EvGetEnvironment;
        EvSignature (Java T_jint) [Java T_jint] "(I)I";
        EvFindClass "com/class/path/Example" 100%N;
        EvGetStaticMethodID 100%N "sumMethod" "(I)I" nullptr;
        EvReport message]
       /\ includes "sumMethod" message
       /\ includes "com/class/path/Example" message
       /\ includes "(I)I" message.
Proof.
  assert (Hc : javaClass Demo.env "com/class/path/Example" Demo.start
               <> nullptr)
    by (vm_compute; discriminate).
  assert (Hm : javaMethod Demo.env Demo.signature (Java T_jint) [Java T_jint]
                 "com/class/path/Example" "sumMethod" Demo.start = nullptr)
    by reflexivity.
  split; [exact Hc|]. split; [exact Hm|].
  exact (callStaticMethod_method_not_found_diagnostic Demo.env SpecToJavaType
           Demo.signature (Java T_jint) [Java T_jint]
           "com/class/path/Example" "sumMethod" [Vint 4] Demo.start Hc Hm).
Defined.

Lemma callStaticMethod_keeps_no_state_witness :
  jvm Demo.start = jvm Demo.later
  /\ fst (runState
            (the_call Demo.env SpecToJavaType Demo.signature (Java T_jint)
               Demo.int_int "com/class/path/Example" "sumMethod"
               Demo.four_five) Demo.start) =
     fst (runState
            (the_call Demo.env SpecToJavaType Demo.signature (Java T_jint)
               Demo.int_int "com/class/path/Example" "sumMethod"
               Demo.four_five) Demo.later)
  /\ events_of Demo.env SpecToJavaType Demo.signature (Java T_jint)
       Demo.int_int "com/class/path/Example" "sumMethod" Demo.four_five
       Demo.start =
     events_of Demo.env SpecToJavaType Demo.signature (Java T_jint)
       Demo.int_int "com/class/path/Example" "sumMethod" Demo.four_five
       Demo.later.
Proof.
  assert (Hj : jvm Demo.start = jvm Demo.later) by reflexivity.
  split; [exact Hj|].
  destruct (proj1 (callStaticMethod_keeps_no_state Demo.env SpecToJavaType
                     Demo.signature (Java T_jint) Demo.int_int
                     "com/class/path/Example" "sumMethod" Demo.four_five)
              Demo.start Demo.later Hj) as (H1 & _ & H3).
  split; [exact H1|exact H3].
Defined.

Lemma StaticCaller_primary_template_witness :
  (specialised (Java T_jbyte) = false
   /\ runState (StaticCaller (Java T_jbyte) [] Demo.env 100%N 8%N [])
        Demo.start =
      (Vobject 100%N,
       {| jvm := 1%N;
          log := [EvCallStatic ObjectMethod 100%N 8%N [] (Vobject 100%N)] |}))
  /\ (specialised
        (CallReturnType (SpecToJavaType (Class "com/class/path/Example")))
      = false
      /\ javaClass Demo.env "com/class/path/Example" Demo.start <> nullptr
      /\ javaMethod Demo.env Demo.signature (Class "com/class/path/Example")
           [Java T_jdouble] "com/class/path/Example" "factoryMethodName"
           Demo.start <> nullptr
      /\ exists l : jobject,
           filter is_call
             (events_of Demo.env SpecToJavaType Demo.signature
                (Class "com/class/path/Example") [Java T_jdouble]
                "com/class/path/Example" "factoryMethodName" [Vdouble 3]
                Demo.start) =
           [EvCallStatic ObjectMethod 100%N 8%N [Vdouble 3] (Vobject l)]
           /\ fst (Demo.call (Class "com/class/path/Example")
                     [Java T_jdouble] "com/class/path/Example"
                     "factoryMethodName" [Vdouble 3]) =
              static_cast T_jobject (Vobject l)).
Proof.
  destruct (StaticCaller_primary_template Demo.env) as (_ & H2 & H3).
  split.
  - assert (Hs : specialised (Java T_jbyte) = false) by reflexivity.
    split; [exact Hs|].
    exact (H2 (Java T_jbyte) [] 100%N 8%N [] Demo.start Hs).
  - assert (Hs : specialised
                   (CallReturnType
                      (SpecToJavaType (Class "com/class/path/Example")))
                 = false) by reflexivity.
    assert (Hc : javaClass Demo.env "com/class/path/Example" Demo.start
                 <> nullptr)
      by (vm_compute; discriminate).
    assert (Hm : javaMethod Demo.env Demo.signature
                   (Class "com/class/path/Example") [Java T_jdouble]
                   "com/class/path/Example" "factoryMethodName" Demo.start
                 <> nullptr)
      by (vm_compute; discriminate).
    split; [exact Hs|]. split; [exact Hc|]. split; [exact Hm|].
    exact (H3 SpecToJavaType Demo.signature (Class "com/class/path/Example")
             [Java T_jdouble] "com/class/path/Example" "factoryMethodName"
             [Vdouble 3] Demo.start Hs Hc Hm).
Defined.

(** ** Further properties *)

Lemma length_append (a b : string) :
  String.length (a ++ b) = String.length a + String.length b.
Proof. induction a as [|x a IH]; simpl; [reflexivity | now rewrite IH]. Qed.

Lemma append_cancel_right (a b c : string) : a ++ c = b ++ c -> a = b.
Proof.
  revert b. induction a as [|x a IH]; intros [|y b] H; simpl in H.
  - reflexivity.
  - apply (f_equal String.length) in H. simpl in H.
    rewrite length_append in H. lia.
  - apply (f_equal String.length) in H. simpl in H.
    rewrite length_append in H. lia.
  - injection H as -> H. now rewrite (IH b H).
Qed.

Lemma has_type_value_init (T : JavaType) : has_type T (value_init T) = true.
Proof. destruct T; reflexivity. Qed.

Lemma static_cast_has_type (T : JavaType) (v v' : jvalue) :
  static_cast T v = Value v' -> has_type T v' = true.
Proof.
  unfold static_cast. destruct (has_type T v) eqn:E.
  - intros H. injection H as <-. exact E.
  - destruct T, v; simpl; intros H; try discriminate H;
      injection H as <-; reflexivity.
Qed.

Lemma static_cast_object_to_arithmetic (T : JavaType) (l : jobject) :
  T <> T_void -> is_reference T = false ->
  static_cast T (Vobject l) = IllFormed.
Proof.
  destruct T; intros Hv Hr; try reflexivity;
    [now elim Hv | discriminate Hr | discriminate Hr].
Qed.

Lemma static_cast_to_void (v : jvalue) : static_cast T_void v = Value Vvoid.
Proof. destruct v; reflexivity. Qed.

(** X6: the class-not-found diagnostic tells which class was asked for:
    two class names with the same diagnostic are the same name. *)
Theorem class_not_found_names_one_class (a b : string) :
  class_not_found a = class_not_found b -> a = b.
Proof.
  unfold class_not_found. simpl. intros H.
  injection H as H. exact (append_cancel_right a b "]" H).
Qed.

Section Further.

Context {JVM : Type}.
Variable env : JNIEnv JVM.
Variable ToJavaType : CppType -> ToJavaTypeOf.
Variable JavaMethodSignature : CppType -> list CppType -> string.
Variable ReturnType : CppType.
Variable ArgumentTypes : list CppType.
Variables className methodName : string.
Variable arguments : list jvalue.

Local Abbreviation T := (RealReturnType ToJavaType ReturnType).
Local Abbreviation signature :=
  (methodSignature JavaMethodSignature ReturnType ArgumentTypes).
Local Abbreviation answer :=
  (call_answer env ToJavaType JavaMethodSignature ReturnType ArgumentTypes
     className methodName arguments).
Local Abbreviation call :=
  (the_call env ToJavaType JavaMethodSignature ReturnType ArgumentTypes
     className methodName arguments).
Local Abbreviation events :=
  (events_of env ToJavaType JavaMethodSignature ReturnType ArgumentTypes
     className methodName arguments).
Local Abbreviation class_of :=
  (javaClass env className).
Local Abbreviation method_of :=
  (javaMethod env JavaMethodSignature ReturnType ArgumentTypes
     className methodName).

Local Abbreviation cases :=
  (run_cases env ToJavaType JavaMethodSignature ReturnType ArgumentTypes
     className methodName arguments).

(** X1: with a type map that leaves the return type [t] as it is, for the
    returned type and for the dispatch, and [t] one of the six specialised
    types or a reference type, a call that resolves returns exactly what the
    JNI function answered, and that value has type [t]. *)
Theorem callStaticMethod_unchanged_type_exact (t : JavaType)
    (w : World JVM) :
  ToJavaType ReturnType = {| Type_ := t; CallReturnType := Java t |} ->
  specialised (Java t) || is_reference t = true ->
  class_of w <> nullptr ->
  method_of w <> nullptr ->
  has_type t (fst (answer (jvm w))) = true
  /\ fst (runState call w) = Value (fst (answer (jvm w))).
Proof.
  intros Ht Hd Hc Hm.
  assert (Hty : has_type T (fst (answer (jvm w))) = true).
  { unfold RealReturnType, call_answer. rewrite Ht. simpl.
    destruct t; try discriminate Hd; reflexivity. }
  split.
  - unfold RealReturnType in Hty. now rewrite Ht in Hty.
  - exact (result_kept env ToJavaType JavaMethodSignature ReturnType
             ArgumentTypes className methodName arguments w Hc Hm Hty).
Qed.

(** X2: when the call is dispatched to the primary template and the
    returned type is an arithmetic type ([jbyte], [jchar], [jshort] left as
    they are, for instance), the cast is from [jobject] to an arithmetic
    type: there is no such [static_cast], so there is no such instance. *)
Theorem callStaticMethod_primary_to_arithmetic (w : World JVM) :
  specialised (CallReturnType (ToJavaType ReturnType)) = false ->
  T <> T_void ->
  is_reference T = false ->
  class_of w <> nullptr ->
  method_of w <> nullptr ->
  fst (runState call w) = IllFormed.
Proof.
  intros Hs Hv Hr Hc Hm.
  rewrite (run_resolved env ToJavaType JavaMethodSignature ReturnType
             ArgumentTypes className methodName arguments w Hc Hm).
  simpl. unfold call_answer.
  destruct variant_of_table as (_ & _ & _ & _ & _ & _ & Hp).
  rewrite (Hp _ Hs). simpl.
  now apply static_cast_object_to_arithmetic.
Qed.

(** X3: when the returned type is [void], the result is the same whether
    the class and the method were found or not: only the report tells a
    failed call from a call that went through. *)
Theorem callStaticMethod_void_result (w : World JVM) :
  T = T_void ->
  fst (runState call w) = Value Vvoid.
Proof.
  intros Hv.
  destruct (cases w) as [(_ & _ & R)|[(_ & _ & _ & R)|(_ & _ & _ & R)]];
    rewrite R, Hv; [reflexivity | reflexivity | apply static_cast_to_void].
Qed.

(** X4: the diagnostic "class not found [className]", alone, is reported
    exactly when FindClass returned null. *)
Theorem class_not_found_reported_iff (w : World JVM) :
  class_of w = nullptr <->
  reports (events w) = [class_not_found className].
Proof.
  destruct (cases w) as [(Hc & E & _)|[(Hc & _ & E & _)|(Hc & _ & E & _)]];
    rewrite E; simpl; split; intros H; try assumption; try reflexivity;
    try contradiction; discriminate H.
Qed.

(** X5: the diagnostic "method [..] for class [..] not found, tried
    signature [..]", alone, is reported exactly when the class was found
    and GetStaticMethodID returned null. *)
Theorem method_not_found_reported_iff (w : World JVM) :
  (class_of w <> nullptr /\ method_of w = nullptr) <->
  reports (events w) = [method_not_found methodName className signature].
Proof.
  destruct (cases w) as [(Hc & E & _)|[(Hc & Hm & E & _)|(Hc & Hm & E & _)]];
    rewrite E; simpl; split; intros H; try (now split); try reflexivity;
    try discriminate H.
  all: destruct H as [H1 H2]; contradiction.
Qed.

(** X7: a call never hands a null class to GetStaticMethodID, nor a null
    class or a null method to a CallStatic function. *)
Theorem callStaticMethod_never_passes_null (w : World JVM) :
  forallb handles_not_null (events w) = true.
Proof.
  destruct (cases w) as [(Hc & E & _)|[(Hc & Hm & E & _)|(Hc & Hm & E & _)]];
    rewrite E; simpl; try reflexivity.
  - apply N.eqb_neq in Hc. now rewrite Hc.
  - apply N.eqb_neq in Hc. apply N.eqb_neq in Hm. now rewrite Hc, Hm.
Qed.

(** X11: whatever value a call returns, on a failure or not, has the
    type the caller expects. *)
Theorem callStaticMethod_result_has_type (w : World JVM) (v : jvalue) :
  fst (runState call w) = Value v ->
  has_type T v = true.
Proof.
  destruct (cases w) as [(_ & _ & R)|[(_ & _ & _ & R)|(_ & _ & _ & R)]];
    rewrite R; intros H.
  - injection H as <-. apply has_type_value_init.
  - injection H as <-. apply has_type_value_init.
  - exact (static_cast_has_type _ _ _ H).
Qed.

(** The log after [n] calls in a row. *)
Lemma repeatedly_log (n : nat) :
  forall w : World JVM,
  exists added : list Event,
    log (snd (runState (repeatedly n call) w)) = (log w ++ added)%list
    /\ length (filter is_class_lookup added) = n
    /\ length (filter is_method_lookup added) <= n
    /\ length (filter is_call added) <= n
    /\ length (reports added) <= n.
Proof.
  induction n as [|n IH]; intros w.
  - exists []. simpl. rewrite app_nil_r. repeat split; lia.
  - cbn [repeatedly bind Monad_state runState].
    destruct (runState call w) as [r w1] eqn:E1.
    destruct (IH w1) as (added & L & C1 & C2 & C3 & C4).
    pose proof (log_extended env ToJavaType JavaMethodSignature ReturnType
                  ArgumentTypes className methodName arguments w) as L1.
    rewrite E1 in L1. simpl in L1.
    assert (Hev : events w = emitted w w1)
      by (unfold events_of; now rewrite E1).
    exists (events w ++ added)%list.
    rewrite L, L1, <- app_assoc.
    split; [reflexivity|].
    unfold reports in *.
    rewrite !filter_app, flat_map_app, !length_app.
    destruct (cases w) as [(_ & E & _)|[(_ & _ & E & _)|(_ & _ & E & _)]];
      rewrite E; simpl; repeat split; lia.
Qed.

(** X10: [n] calls in a row look the class up [n] times: nothing is kept
    from a call for the next one.  They look a method up and call a Java
    method at most [n] times. *)
Theorem repeatedly_looks_up_every_time (n : nat) (w : World JVM) :
  length (filter is_class_lookup
            (emitted w (snd (runState (repeatedly n call) w)))) = n
  /\ length (filter is_method_lookup
               (emitted w (snd (runState (repeatedly n call) w)))) <= n
  /\ length (filter is_call
               (emitted w (snd (runState (repeatedly n call) w)))) <= n.
Proof.
  destruct (repeatedly_log n w) as (added & L & C1 & C2 & C3 & _).
  unfold emitted. rewrite L, skipn_app, skipn_all, Nat.sub_diag. simpl.
  repeat split; assumption.
Qed.

End Further.

(** X9: a call that fails returns what a call that goes through returns
    when the Java method answers zero, false or null: the returned value
    does not tell the two apart. *)
Theorem callStaticMethod_failure_looks_like_default {JVM JVM' : Type}
    (env : JNIEnv JVM) (env' : JNIEnv JVM')
    (ToJavaType : CppType -> ToJavaTypeOf)
    (JavaMethodSignature : CppType -> list CppType -> string)
    (ReturnType : CppType) (ArgumentTypes ArgumentTypes' : list CppType)
    (className methodName className' methodName' : string)
    (arguments arguments' : list jvalue)
    (w : World JVM) (w' : World JVM') :
  javaClass env className w <> nullptr ->
  javaMethod env JavaMethodSignature ReturnType ArgumentTypes
    className methodName w <> nullptr ->
  fst (call_answer env ToJavaType JavaMethodSignature ReturnType
         ArgumentTypes className methodName arguments (jvm w)) =
    value_init (Type_ (ToJavaType ReturnType)) ->
  javaClass env' className' w' = nullptr
  \/ javaMethod env' JavaMethodSignature ReturnType ArgumentTypes'
       className' methodName' w' = nullptr ->
  fst (runState
         (callStaticMethod env ToJavaType JavaMethodSignature ReturnType
            ArgumentTypes className methodName arguments) w) =
  fst (runState
         (callStaticMethod env' ToJavaType JavaMethodSignature ReturnType
            ArgumentTypes' className' methodName' arguments') w').
Proof.
  intros Hc Hm Ha Hf.
  pose proof (run_resolved env ToJavaType JavaMethodSignature ReturnType
                ArgumentTypes className methodName arguments w Hc Hm) as R.
  unfold the_call in R. rewrite R. clear R. cbn [fst]. rewrite Ha.
  unfold RealReturnType.
  rewrite (static_cast_same_type _ _ (has_type_value_init _)).
  destruct (run_cases env' ToJavaType JavaMethodSignature ReturnType
              ArgumentTypes' className' methodName' arguments' w')
    as [(_ & _ & R)|[(_ & _ & _ & R)|(Hc' & Hm' & _)]].
  - unfold the_call in R. now rewrite R.
  - unfold the_call in R. now rewrite R.
  - destruct Hf; contradiction.
Qed.

(** X8: the runtime sees the class name and the method name as C strings.
    Names that agree up to their first null character give the same
    result, the same state of the virtual machine and the same calls; only
    the text of a diagnostic, which has the names in full, can differ. *)
Theorem callStaticMethod_names_as_c_strings {JVM : Type} (env : JNIEnv JVM)
    (ToJavaType : CppType -> ToJavaTypeOf)
    (JavaMethodSignature : CppType -> list CppType -> string)
    (ReturnType : CppType) (ArgumentTypes : list CppType)
    (className methodName className' methodName' : string)
    (arguments : list jvalue) (w : World JVM) :
  c_str className' = c_str className ->
  c_str methodName' = c_str methodName ->
  fst (runState
         (callStaticMethod env ToJavaType JavaMethodSignature ReturnType
            ArgumentTypes className' methodName' arguments) w) =
  fst (runState
         (callStaticMethod env ToJavaType JavaMethodSignature ReturnType
            ArgumentTypes className methodName arguments) w)
  /\ jvm (snd (runState
                 (callStaticMethod env ToJavaType JavaMethodSignature
                    ReturnType ArgumentTypes className' methodName'
                    arguments) w)) =
     jvm (snd (runState
                 (callStaticMethod env ToJavaType JavaMethodSignature
                    ReturnType ArgumentTypes className methodName
                    arguments) w))
  /\ filter (fun e => negb (is_report e))
       (events_of env ToJavaType JavaMethodSignature ReturnType
          ArgumentTypes className' methodName' arguments w) =
     filter (fun e => negb (is_report e))
       (events_of env ToJavaType JavaMethodSignature ReturnType
          ArgumentTypes className methodName arguments w).
Proof.
  intros Hcn Hmn.
  assert (Ec : class_answer env className' = class_answer env className)
    by (unfold class_answer; now rewrite Hcn).
  assert (Em : method_answer env JavaMethodSignature ReturnType
                 ArgumentTypes className' methodName' =
               method_answer env JavaMethodSignature ReturnType
                 ArgumentTypes className methodName)
    by (unfold method_answer; now rewrite Ec, Hmn).
  assert (Ea : call_answer env ToJavaType JavaMethodSignature ReturnType
                 ArgumentTypes className' methodName' arguments =
               call_answer env ToJavaType JavaMethodSignature ReturnType
                 ArgumentTypes className methodName arguments)
    by (unfold call_answer; now rewrite Ec, Em).
  assert (Jc : javaClass env className' w = javaClass env className w)
    by (unfold javaClass; now rewrite Ec).
  assert (Jm : javaMethod env JavaMethodSignature ReturnType ArgumentTypes
                 className' methodName' w =
               javaMethod env JavaMethodSignature ReturnType ArgumentTypes
                 className methodName w)
    by (unfold javaMethod; now rewrite Em).
  change (callStaticMethod env ToJavaType JavaMethodSignature ReturnType
            ArgumentTypes className' methodName' arguments)
    with (the_call env ToJavaType JavaMethodSignature ReturnType
            ArgumentTypes className' methodName' arguments).
  change (callStaticMethod env ToJavaType JavaMethodSignature ReturnType
            ArgumentTypes className methodName arguments)
    with (the_call env ToJavaType JavaMethodSignature ReturnType
            ArgumentTypes className methodName arguments).
  destruct (N.eq_dec (javaClass env className w) nullptr) as [Hc|Hc].
  - assert (Hc' := Hc). rewrite <- Jc in Hc'.
    rewrite (events_class_not_found _ _ _ _ _ _ _ _ _ Hc),
      (events_class_not_found _ _ _ _ _ _ _ _ _ Hc'),
      (run_class_not_found _ _ _ _ _ _ _ _ _ Hc),
      (run_class_not_found _ _ _ _ _ _ _ _ _ Hc').
    simpl. now rewrite Ec, Hcn.
  - assert (Hc' := Hc). rewrite <- Jc in Hc'.
    destruct (N.eq_dec (javaMethod env JavaMethodSignature ReturnType
                          ArgumentTypes className methodName w) nullptr)
      as [Hm|Hm].
    + assert (Hm' := Hm). rewrite <- Jm in Hm'.
      rewrite (events_method_not_found _ _ _ _ _ _ _ _ _ Hc Hm),
        (events_method_not_found _ _ _ _ _ _ _ _ _ Hc' Hm'),
        (run_method_not_found _ _ _ _ _ _ _ _ _ Hc Hm),
        (run_method_not_found _ _ _ _ _ _ _ _ _ Hc' Hm').
      simpl. now rewrite Em, Jc, Hcn, Hmn.
    + assert (Hm' := Hm). rewrite <- Jm in Hm'.
      rewrite (events_resolved _ _ _ _ _ _ _ _ _ Hc Hm),
        (events_resolved _ _ _ _ _ _ _ _ _ Hc' Hm'),
        (run_resolved _ _ _ _ _ _ _ _ _ Hc Hm),
        (run_resolved _ _ _ _ _ _ _ _ _ Hc' Hm').
      simpl. now rewrite Ea, Jc, Jm, Hcn, Hmn.
Qed.

(** ** The further properties on the small runtimes *)

Lemma callStaticMethod_unchanged_type_exact_witness :
  Demo.unchanged (Java T_jint) =
    {| Type_ := T_jint; CallReturnType := Java T_jint |}
  /\ specialised (Java T_jint) || is_reference T_jint = true
  /\ javaClass Demo.env "com/class/path/Example" Demo.start <> nullptr
  /\ javaMethod Demo.env Demo.signature (Java T_jint) Demo.int_int
       "com/class/path/Example" "sumMethod" Demo.start <> nullptr
  /\ has_type T_jint (Vint 9) = true
  /\ fst (runState
            (callStaticMethod Demo.env Demo.unchanged Demo.signature
               (Java T_jint) Demo.int_int "com/class/path/Example"
               "sumMethod" Demo.four_five) Demo.start) = Value (Vint 9).
Proof.
  assert (Ht : Demo.unchanged (Java T_jint) =
                 {| Type_ := T_jint; CallReturnType := Java T_jint |})
    by reflexivity.
  assert (Hd : specialised (Java T_jint) || is_reference T_jint = true)
    by reflexivity.
  assert (Hc : javaClass Demo.env "com/class/path/Example" Demo.start
               <> nullptr)
    by (vm_compute; discriminate).
  assert (Hm : javaMethod Demo.env Demo.signature (Java T_jint) Demo.int_int
                 "com/class/path/Example" "sumMethod" Demo.start <> nullptr)
    by (vm_compute; discriminate).
  split; [exact Ht|]. split; [exact Hd|]. split; [exact Hc|].
  split; [exact Hm|].
  exact (callStaticMethod_unchanged_type_exact Demo.env Demo.unchanged
           Demo.signature (Java T_jint) Demo.int_int
           "com/class/path/Example" "sumMethod" Demo.four_five T_jint
           Demo.start Ht Hd Hc Hm).
Defined.

Lemma callStaticMethod_primary_to_arithmetic_witness :
  specialised (CallReturnType (Demo.unchanged (Java T_jbyte))) = false
  /\ RealReturnType Demo.unchanged (Java T_jbyte) <> T_void
  /\ is_reference (RealReturnType Demo.unchanged (Java T_jbyte)) = false
  /\ javaClass Demo.generous "com/class/path/Example" Demo.start <> nullptr
  /\ javaMethod Demo.generous Demo.signature (Java T_jbyte) []
       "com/class/path/Example" "byteMethod" Demo.start <> nullptr
  /\ fst (runState
            (callStaticMethod Demo.generous Demo.unchanged Demo.signature
               (Java T_jbyte) [] "com/class/path/Example" "byteMethod" [])
            Demo.start) = IllFormed.
Proof.
  assert (Hs : specialised (CallReturnType (Demo.unchanged (Java T_jbyte)))
               = false) by reflexivity.
  assert (Hv : RealReturnType Demo.unchanged (Java T_jbyte) <> T_void)
    by (vm_compute; discriminate).
  assert (Hr : is_reference (RealReturnType Demo.unchanged (Java T_jbyte))
               = false) by reflexivity.
  assert (Hc : javaClass Demo.generous "com/class/path/Example" Demo.start
               <> nullptr)
    by (vm_compute; discriminate).
  assert (Hm : javaMethod Demo.generous Demo.signature (Java T_jbyte) []
                 "com/class/path/Example" "byteMethod" Demo.start
               <> nullptr)
    by (vm_compute; discriminate).
  split; [exact Hs|]. split; [exact Hv|]. split; [exact Hr|].
  split; [exact Hc|]. split; [exact Hm|].
  exact (callStaticMethod_primary_to_arithmetic Demo.generous Demo.unchanged
           Demo.signature (Java T_jbyte) [] "com/class/path/Example"
           "byteMethod" [] Demo.start Hs Hv Hr Hc Hm).
Defined.

Lemma callStaticMethod_void_result_witness :
  RealReturnType SpecToJavaType (Java T_void) = T_void
  /\ fst (Demo.call (Java T_void) [] "com/class/path/Nope"
            "voidMethodName" []) = Value Vvoid
  /\ fst (Demo.call (Java T_void) [] "com/class/path/Example"
            "voidMethodName" []) = Value Vvoid.
Proof.
  assert (Hv : RealReturnType SpecToJavaType (Java T_void) = T_void)
    by reflexivity.
  split; [exact Hv|]. split.
  - exact (callStaticMethod_void_result Demo.env SpecToJavaType
             Demo.signature (Java T_void) [] "com/class/path/Nope"
             "voidMethodName" [] Demo.start Hv).
  - exact (callStaticMethod_void_result Demo.env SpecToJavaType
             Demo.signature (Java T_void) [] "com/class/path/Example"
             "voidMethodName" [] Demo.start Hv).
Defined.

Lemma class_not_found_names_one_class_witness :
  class_not_found "com/class/path/Nope" =
    class_not_found (c_str ("com/class/path/Nope" ++ String Ascii.zero "x"))
  /\ "com/class/path/Nope" =
     c_str ("com/class/path/Nope" ++ String Ascii.zero "x").
Proof.
  assert (H : class_not_found "com/class/path/Nope" =
              class_not_found
                (c_str ("com/class/path/Nope" ++ String Ascii.zero "x")))
    by reflexivity.
  split; [exact H|].
  exact (class_not_found_names_one_class _ _ H).
Defined.

Lemma callStaticMethod_names_as_c_strings_witness :
  c_str ("com/class/path/Example" ++ String Ascii.zero "Class") =
    c_str "com/class/path/Example"
  /\ c_str "sumMethod" = c_str "sumMethod"
  /\ fst (runState
            (callStaticMethod Demo.env SpecToJavaType Demo.signature
               (Java T_jint) Demo.int_int
               ("com/class/path/Example" ++ String Ascii.zero "Class")
               "sumMethod" Demo.four_five) Demo.start) =
     fst (Demo.call (Java T_jint) Demo.int_int "com/class/path/Example"
            "sumMethod" Demo.four_five).
Proof.
  assert (Hc : c_str ("com/class/path/Example" ++ String Ascii.zero "Class")
               = c_str "com/class/path/Example") by reflexivity.
  assert (Hm : c_str "sumMethod" = c_str "sumMethod") by reflexivity.
  split; [exact Hc|]. split; [exact Hm|].
  exact (proj1 (callStaticMethod_names_as_c_strings Demo.env SpecToJavaType
                  Demo.signature (Java T_jint) Demo.int_int
                  "com/class/path/Example" "sumMethod"
                  ("com/class/path/Example" ++ String Ascii.zero "Class")
                  "sumMethod" Demo.four_five Demo.start Hc Hm)).
Defined.

Lemma callStaticMethod_failure_looks_like_default_witness :
  javaClass Demo.env "com/class/path/Example" Demo.start <> nullptr
  /\ javaMethod Demo.env Demo.signature (Java T_jint) Demo.int_int
       "com/class/path/Example" "sumMethod" Demo.start <> nullptr
  /\ fst (call_answer Demo.env SpecToJavaType Demo.signature (Java T_jint)
            Demo.int_int "com/class/path/Example" "sumMethod"
            [Vint 2; Vint (-2)] (jvm Demo.start)) = value_init T_jint
  /\ javaClass Demo.env "com/class/path/Nope" Demo.start = nullptr
  /\ fst (Demo.call (Java T_jint) Demo.int_int "com/class/path/Example"
            "sumMethod" [Vint 2; Vint (-2)]) =
     fst (Demo.call (Java T_jint) Demo.int_int "com/class/path/Nope"
            "sumMethod" Demo.four_five).
Proof.
  assert (Hc : javaClass Demo.env "com/class/path/Example" Demo.start
               <> nullptr)
    by (vm_compute; discriminate).
  assert (Hm : javaMethod Demo.env Demo.signature (Java T_jint) Demo.int_int
                 "com/class/path/Example" "sumMethod" Demo.start <> nullptr)
    by (vm_compute; discriminate).
  assert (Ha : fst (call_answer Demo.env SpecToJavaType Demo.signature
                      (Java T_jint) Demo.int_int "com/class/path/Example"
                      "sumMethod" [Vint 2; Vint (-2)] (jvm Demo.start)) =
               value_init (Type_ (SpecToJavaType (Java T_jint))))
    by reflexivity.
  assert (Hf : javaClass Demo.env "com/class/path/Nope" Demo.start = nullptr)
    by reflexivity.
  split; [exact Hc|]. split; [exact Hm|]. split; [exact Ha|].
  split; [exact Hf|].
  exact (callStaticMethod_failure_looks_like_default Demo.env Demo.env
           SpecToJavaType Demo.signature (Java T_jint) Demo.int_int
           Demo.int_int "com/class/path/Example" "sumMethod"
           "com/class/path/Nope" "sumMethod" [Vint 2; Vint (-2)]
           Demo.four_five Demo.start Demo.start Hc Hm Ha (or_introl Hf)).
Defined.

Lemma callStaticMethod_result_has_type_witness :
  fst (Demo.call (Java T_jint) Demo.int_int "com/class/path/Example"
         "sumMethod" Demo.four_five) = Value (Vint 9)
  /\ has_type T_jint (Vint 9) = true.
Proof.
  assert (H : fst (runState
                     (the_call Demo.env SpecToJavaType Demo.signature
                        (Java T_jint) Demo.int_int "com/class/path/Example"
                        "sumMethod" Demo.four_five) Demo.start) =
              Value (Vint 9)) by reflexivity.
  split; [exact H|].
  exact (callStaticMethod_result_has_type Demo.env SpecToJavaType
           Demo.signature (Java T_jint) Demo.int_int "com/class/path/Example"
           "sumMethod" Demo.four_five Demo.start (Vint 9) H).
Defined.
